(** * The HTTP control service of the UI-TARS desktop agent

    A shallow embedding of [apps/ui-tars/src/main/services/httpServer.ts]:
    the [HttpServerService] class (configuration, listener life cycle and the
    request handler) together with the run-state store it reads and writes.

    Node's event loop runs one callback at a time, so the service is modelled
    as a transition system: a [World] holds everything the callbacks can
    reach, an [Event] is one callback invocation, and [step] runs that
    callback to completion. *)

From stdpp Require Import base option list gmap strings.
From Stdlib Require Import ZArith Bool Ascii String.

Local Open Scope string_scope.

(** ** JavaScript values *)

#[local] Set Warnings "-register-all".

(** The values [JSON.parse] can return, plus [undefined], which reading a
    missing property gives.  A number is kept as mantissa and decimal
    exponent; an object keeps its members in text order. *)
Inductive JSValue : Type :=
| JUndefined
| JNull
| JBool (b : bool)
| JNumber (mantissa exponent : Z)
| JString (s : string)
| JArray (items : list JSValue)
| JObject (members : list (string * JSValue)).

(** [!!v] of JavaScript.  (A literal so small that it rounds to zero is
    falsy in the engine and truthy here; it is a number either way.) *)
Definition truthy (v : JSValue) : bool :=
  match v with
  | JUndefined | JNull => false
  | JBool b => b
  | JNumber m _ => negb (m =? 0)%Z
  | JString s => negb (String.eqb s EmptyString)
  | JArray _ | JObject _ => true
  end.

Definition typeof (v : JSValue) : string :=
  match v with
  | JUndefined => "undefined"
  | JNull | JArray _ | JObject _ => "object"
  | JBool _ => "boolean"
  | JNumber _ _ => "number"
  | JString _ => "string"
  end.

(** A duplicated key of a JSON text keeps its last value. *)
Fixpoint lookup_member (k : string) (ms : list (string * JSValue)) : option JSValue :=
  match ms with
  | [] => None
  | (k', v) :: rest =>
      match lookup_member k rest with
      | Some v' => Some v'
      | None => if String.eqb k k' then Some v else None
      end
  end.

(** [data.instructions] where [data] came out of [JSON.parse]: only an
    object has such a property of its own, and no prototype has one. *)
Definition instructions_of (data : JSValue) : JSValue :=
  match data with
  | JObject members =>
      match lookup_member "instructions" members with
      | Some v => v
      | None => JUndefined
      end
  | _ => JUndefined
  end.

(** A value that was thrown, or with which a promise was rejected. *)
Inductive Thrown : Type :=
| ErrorInstance (message : string)
    (* an instance of Error: SyntaxError, TypeError, ... *)
| ThrownValue (message : option string)
    (* any other value but null and undefined, with its message property
       when it has a string one *)
| ThrownNullish.
    (* null or undefined *)

(** [error.message]: [None] when the read itself throws (a property of null
    or undefined), otherwise the message, absent or a string. *)
Definition error_message (e : Thrown) : option (option string) :=
  match e with
  | ErrorInstance m => Some (Some m)
  | ThrownValue m => Some m
  | ThrownNullish => None
  end.

(** ** The run state store *)

(** Modelled from the spec: [StatusEnum] is declared in
    [@ui-tars/shared/types], outside the sources at hand; the spec lists
    IDLE, RUNNING, END, ERROR "and others". *)
Inductive StatusEnum : Type :=
| IDLE
| RUNNING
| END
| ERROR
| OTHER (name : string).

Definition StatusEnum_eqb (a b : StatusEnum) : bool :=
  match a, b with
  | IDLE, IDLE | RUNNING, RUNNING | END, END | ERROR, ERROR => true
  | OTHER x, OTHER y => String.eqb x y
  | _, _ => false
  end.

(** An [AbortController] is an object with identity; the number is the
    order of its creation. *)
Definition AbortController : Type := nat.

(** What [store.getState()] returns: the fields the service touches.  The
    transcript entries are opaque to it, only their number is read. *)
Record RunState : Type := mkRunState {
  status : StatusEnum;
  thinking : bool;
  instructions : option string;
  messages : option (list string);
  errorMsg : option string;
  abortController : option AbortController;
}.

(** The argument of [store.setState]: the keys of the object literal. *)
Record PartialState : Type := mkPartialState {
  set_status : option StatusEnum;
  set_thinking : option bool;
  set_instructions : option (option string);
  set_messages : option (option (list string));
  set_errorMsg : option (option string);
  set_abortController : option (option AbortController);
}.

Definition no_change : PartialState :=
  mkPartialState None None None None None None.

(** A key that is present replaces the field, an absent one keeps it. *)
Definition assign {A : Type} (cur : A) (upd : option A) : A :=
  match upd with Some v => v | None => cur end.

(** The store's shallow merge. *)
Definition merge_state (s : RunState) (p : PartialState) : RunState :=
  {| status := assign (status s) (set_status p);
     thinking := assign (thinking s) (set_thinking p);
     instructions := assign (instructions s) (set_instructions p);
     messages := assign (messages s) (set_messages p);
     errorMsg := assign (errorMsg s) (set_errorMsg p);
     abortController := assign (abortController s) (set_abortController p) |}.

(** ** Configuration and listener *)

(** [HttpServerConfig].  [Partial<HttpServerConfig>] lets a key be present
    with the value undefined, and the spread then stores it, so every field
    can be undefined at run time: [None]. *)
Record HttpServerConfig : Type := mkConfig {
  enabled : option bool;
  port : option N;
  host : option string;
  apiKey : option string;
}.

Definition DEFAULT_CONFIG : HttpServerConfig :=
  {| enabled := Some false; port := Some 9527%N; host := Some "127.0.0.1";
     apiKey := None |}.

(** [Partial<HttpServerConfig>]: the outer option says whether the key is
    there. *)
Record PartialConfig : Type := mkPartialConfig {
  set_enabled : option (option bool);
  set_port : option (option N);
  set_host : option (option string);
  set_apiKey : option (option string);
}.

(** [{ ...this.config, ...config }] *)
Definition spread (c : HttpServerConfig) (p : PartialConfig) : HttpServerConfig :=
  {| enabled := assign (enabled c) (set_enabled p);
     port := assign (port c) (set_port p);
     host := assign (host c) (set_host p);
     apiKey := assign (apiKey c) (set_apiKey p) |}.

(** An [http.Server] as far as the service sees it: the address that was
    handed to [listen] when it was created. *)
Record Listener : Type := mkListener {
  bound_port : option N;
  bound_host : option string;
}.

(** ** Requests and responses *)

(** [http.IncomingMessage]: header names arrive in lower case. *)
Record IncomingMessage : Type := mkRequest {
  method : string;
  url : string;
  headers : gmap string string;
}.

(** A value in a response object, before [JSON.stringify]. *)
Inductive Field : Type :=
| FString (s : string)
| FBool (b : bool)
| FNumber (n : nat)
| FStatus (s : StatusEnum)
| FUndefined.

Definition optional_string (o : option string) : Field :=
  match o with Some s => FString s | None => FUndefined end.

(** What was written to a [http.ServerResponse]: the status code, the
    headers, and the object given to [sendJson] ([None]: [res.end()] without
    a body). *)
Record Response : Type := mkResponse {
  statusCode : nat;
  responseHeaders : list (string * string);
  payload : option (list (string * Field));
}.

Inductive LogEntry : Type :=
| LogInfo (text : string)
| LogWarn (text : string)
| LogError (text : string).

(** ** The world *)

Record World : Type := mkWorld {
  config : HttpServerConfig;            (* this.config *)
  server : option Listener;             (* this.server *)
  store : RunState;                     (* the store's state *)
  controllers : nat;                    (* AbortControllers created so far *)
  aborted : gset AbortController;       (* those whose signal is aborted *)
  runs : nat;                           (* runAgent calls so far *)
  pending : gmap nat nat;               (* promises not settled: run to the
                                           request whose listener made it *)
  connections : nat;                    (* requests received so far *)
  reading : gmap nat string;            (* [body] of each /run request still read *)
  sent : list (nat * Response);         (* responses, newest first *)
  log : list LogEntry;                  (* logger calls, newest first *)
}.

Definition with_config (c : HttpServerConfig) (w : World) : World :=
  mkWorld c (server w) (store w) (controllers w) (aborted w) (runs w)
    (pending w) (connections w) (reading w) (sent w) (log w).

Definition with_server (l : option Listener) (w : World) : World :=
  mkWorld (config w) l (store w) (controllers w) (aborted w) (runs w)
    (pending w) (connections w) (reading w) (sent w) (log w).

Definition with_store (s : RunState) (w : World) : World :=
  mkWorld (config w) (server w) s (controllers w) (aborted w) (runs w)
    (pending w) (connections w) (reading w) (sent w) (log w).

Definition with_controllers (n : nat) (a : gset AbortController) (w : World) : World :=
  mkWorld (config w) (server w) (store w) n a (runs w)
    (pending w) (connections w) (reading w) (sent w) (log w).

Definition with_runs (n : nat) (p : gmap nat nat) (w : World) : World :=
  mkWorld (config w) (server w) (store w) (controllers w) (aborted w) n
    p (connections w) (reading w) (sent w) (log w).

Definition with_connections (n : nat) (w : World) : World :=
  mkWorld (config w) (server w) (store w) (controllers w) (aborted w) (runs w)
    (pending w) n (reading w) (sent w) (log w).

Definition with_reading (r : gmap nat string) (w : World) : World :=
  mkWorld (config w) (server w) (store w) (controllers w) (aborted w) (runs w)
    (pending w) (connections w) r (sent w) (log w).

Definition with_sent (l : list (nat * Response)) (w : World) : World :=
  mkWorld (config w) (server w) (store w) (controllers w) (aborted w) (runs w)
    (pending w) (connections w) (reading w) l (log w).

Definition with_log (l : list LogEntry) (w : World) : World :=
  mkWorld (config w) (server w) (store w) (controllers w) (aborted w) (runs w)
    (pending w) (connections w) (reading w) (sent w) l.

(** A callback is a state transformer over the world that runs to its end. *)
Definition Action (A : Type) : Type := World -> A * World.

#[export] Instance Action_ret : MRet Action := fun _ a w => (a, w).
#[export] Instance Action_bind : MBind Action :=
  fun _ _ f m w => let (a, w') := m w in f a w'.

Definition exec {A : Type} (m : Action A) (w : World) : World := snd (m w).

(** *** What the callbacks call *)

Definition getState : Action RunState := fun w => (store w, w).

Definition setState (p : PartialState) : Action unit :=
  fun w => (tt, with_store (merge_state (store w) p) w).

(** [new AbortController()]: an object no earlier one is equal to, its
    signal not aborted. *)
Definition new_AbortController : Action AbortController :=
  fun w => (controllers w, with_controllers (S (controllers w)) (aborted w) w).

(** [abortController?.abort()].  The runner's reaction to the signal is the
    runner's: it shows as [RunnerSetState] events. *)
Definition abort (o : option AbortController) : Action unit :=
  fun w =>
    match o with
    | Some a => (tt, with_controllers (controllers w) ({[a]} ∪ aborted w) w)
    | None => (tt, w)
    end.

(** Modelled from the spec: [runAgent(setState, getState)] is declared in
    [./runAgent], outside the sources at hand; the spec gives it as an
    asynchronous operation returning a promise that reads and writes the run
    state through the store.  The call yields a promise that is not settled;
    the handler reads nothing from the store after the call, so what the
    runner writes, from its first statement on, is a sequence of
    [RunnerSetState] events after the callback that called it. *)
Definition runAgent : Action nat :=
  fun w => (runs w, with_runs (S (runs w)) (pending w) w).

(** [.then(...).catch(...)] on the promise of run [r], in the listener of
    request [c]: the two callbacks wait for the promise to settle. *)
Definition then_catch (r c : nat) : Action unit :=
  fun w => (tt, with_runs (runs w) (<[r := c]> (pending w)) w).

Definition logger_info (text : string) : Action unit :=
  fun w => (tt, with_log (LogInfo text :: log w) w).
Definition logger_warn (text : string) : Action unit :=
  fun w => (tt, with_log (LogWarn text :: log w) w).
Definition logger_error (text : string) : Action unit :=
  fun w => (tt, with_log (LogError text :: log w) w).

(** The three [res.setHeader] calls that open [handleRequest]. *)
Definition cors_headers : list (string * string) :=
  [ ("Access-Control-Allow-Origin", "*");
    ("Access-Control-Allow-Methods", "GET, POST, OPTIONS");
    ("Access-Control-Allow-Headers", "Content-Type, X-API-Key") ].

Definition respond (c : nat) (r : Response) : Action unit :=
  fun w => (tt, with_sent ((c, r) :: sent w) w).

(** [res.writeHead(200); res.end()] *)
Definition end_empty (c : nat) : Action unit :=
  respond c (mkResponse 200 cors_headers None).

(** What [sendJson(res, code, data)] writes. *)
Definition json_response (code : nat) (data : list (string * Field)) : Response :=
  mkResponse code (cors_headers ++ [("Content-Type", "application/json")])
             (Some data).

Definition sendJson (c : nat) (code : nat) (data : list (string * Field)) : Action unit :=
  respond c (json_response code data).

(** The response objects of the handler. *)
Definition unauthorized : list (string * Field) :=
  [("error", FString "Unauthorized")].
Definition bad_request : list (string * Field) :=
  [("error", FString "Bad Request");
   ("message", FString "instructions is required and must be a string")].
Definition conflict : list (string * Field) :=
  [("error", FString "Conflict");
   ("message", FString "Agent is already running")].
Definition agent_started (instr : string) : list (string * Field) :=
  [("success", FBool true);
   ("message", FString "Agent started");
   ("instructions", FString instr)].
Definition agent_stopped : list (string * Field) :=
  [("success", FBool true); ("message", FString "Agent stopped")].
Definition internal_error (msg : string) : list (string * Field) :=
  [("error", FString "Internal Server Error"); ("message", FString msg)].
Definition not_found : list (string * Field) :=
  [("error", FString "Not Found")].

(** [this.config.enabled] as a condition: undefined counts as false. *)
Definition is_enabled (c : HttpServerConfig) : bool :=
  match enabled c with Some b => b | None => false end.

(** [this.server] as a condition. *)
Definition is_running (w : World) : bool :=
  match server w with Some _ => true | None => false end.

(** [this.config.apiKey] as a condition: set and not the empty string. *)
Definition apiKey_configured (c : HttpServerConfig) : bool :=
  match apiKey c with
  | Some k => negb (String.eqb k EmptyString)
  | None => false
  end.

(** [apiKey !== this.config.apiKey], both possibly undefined. *)
Definition strict_neq (a b : option string) : bool :=
  match a, b with
  | Some x, Some y => negb (String.eqb x y)
  | None, None => false
  | _, _ => true
  end.

(** [body || '{}'] *)
Definition or_empty_object (body : string) : string :=
  if String.eqb body EmptyString then "{}" else body.

(** The narrowing of a value whose [typeof] is "string". *)
Definition as_string (v : JSValue) : string :=
  match v with JString s => s | _ => EmptyString end.

(** [messages?.length || 0] *)
Definition messageCount (s : RunState) : nat :=
  match messages s with Some l => List.length l | None => 0 end.

(** ** The service *)

Section Service.

(** [JSON.parse] belongs to the engine: it returns a value or throws. *)
Variable JSON_parse : string -> Thrown + JSValue.

(** The message of the TypeError that destructuring null raises. *)
Variable cannot_destructure : string.

(** [const { instructions, sessionId } = data]: a TypeError on null and
    undefined, the property read otherwise.  [sessionId] is not used. *)
Definition destructure (data : JSValue) : Thrown + JSValue :=
  match data with
  | JNull | JUndefined => inl (ErrorInstance cannot_destructure)
  | _ => inr (instructions_of data)
  end.

(** The part of the try block that can throw. *)
Definition parse_instructions (body : string) : Thrown + JSValue :=
  match JSON_parse (or_empty_object body) with
  | inl e => inl e
  | inr data => destructure data
  end.

(** [start()].  The bind itself, and the log line of its callback, come
    later and are not the service's concern. *)
Definition start : Action unit :=
  fun w =>
    if is_running w
    then logger_warn "[HttpServer] Server already running" w
    else if negb (is_enabled (config w))
    then logger_info "[HttpServer] Server is disabled" w
    else (tt, with_server
                (Some (mkListener (port (config w)) (host (config w)))) w).

(** [stop()]: the handle is dropped at once, the close completes later. *)
Definition stop : Action unit :=
  fun w => if is_running w then (tt, with_server None w) else (tt, w).

(** [setConfig(config)] *)
Definition setConfig (p : PartialConfig) : Action unit :=
  fun w =>
    let w := with_config (spread (config w) p) w in
    if is_running w && negb (is_enabled (config w)) then stop w
    else if negb (is_running w) && is_enabled (config w) then start w
    else (tt, w).

(** [getConfig()] *)
Definition getConfig : Action HttpServerConfig := fun w => (config w, w).

(** [handleRequest(req, res)] up to its return; [c] stands for [res].  A
    request for /run leaves its two listeners behind: [body] is entered in
    [reading]. *)
Definition handleRequest (c : nat) (req : IncomingMessage) : Action unit :=
  fun w =>
    if String.eqb (method req) "OPTIONS" then end_empty c w
    else if apiKey_configured (config w)
            && strict_neq (headers req !! "x-api-key") (apiKey (config w))
    then sendJson c 401 unauthorized w
    else if String.eqb (method req) "GET" && String.eqb (url req) "/health"
    then
      (s ← getState;
       sendJson c 200 [("status", FString "ok");
                       ("agentStatus", FStatus (status s));
                       ("isRunning", FBool (thinking s))]) w
    else if String.eqb (method req) "GET" && String.eqb (url req) "/status"
    then
      (s ← getState;
       sendJson c 200 [("status", FStatus (status s));
                       ("instructions", optional_string (instructions s));
                       ("isRunning", FBool (thinking s));
                       ("messageCount", FNumber (messageCount s))]) w
    else if String.eqb (method req) "POST" && String.eqb (url req) "/run"
    then (tt, with_reading (<[c := EmptyString]> (reading w)) w)
    else if String.eqb (method req) "POST" && String.eqb (url req) "/stop"
    then
      (s ← getState;
       setState {| set_status := Some END; set_thinking := Some false;
                   set_instructions := None; set_messages := None;
                   set_errorMsg := None; set_abortController := None |};;
       abort (abortController s);;
       sendJson c 200 agent_stopped) w
    else sendJson c 404 not_found w.

(** The ['data'] listener: [body += chunk.toString()]. *)
Definition on_data (c : nat) (chunk : string) : Action unit :=
  fun w =>
    match reading w !! c with
    | Some body => (tt, with_reading (<[c := body ++ chunk]> (reading w)) w)
    | None => (tt, w)
    end.

(** The catch clause of the ['end'] listener. *)
Definition catch_run (c : nat) (error : Thrown) : Action unit :=
  logger_error "[HttpServer] Error handling /run:";;
  sendJson c 500
    (internal_error
       match error with
       | ErrorInstance message => message   (* error instanceof Error *)
       | _ => "Unknown error"
       end).

(** The ['end'] listener, with [body] as it stands when it is called. *)
Definition end_listener (c : nat) (body : string) : Action unit :=
  match parse_instructions body with
  | inl error => catch_run c error
  | inr instr =>
      if negb (truthy instr) || negb (String.eqb (typeof instr) "string")
      then sendJson c 400 bad_request
      else
        s ← getState;
        if thinking s || StatusEnum_eqb (status s) RUNNING
        then sendJson c 409 conflict
        else
          a ← new_AbortController;
          setState {| set_instructions := Some (Some (as_string instr));
                      set_abortController := Some (Some a);
                      set_thinking := Some true;
                      set_errorMsg := Some None;
                      set_status := None; set_messages := None |};;
          r ← runAgent;
          then_catch r c;;
          sendJson c 200 (agent_started (as_string instr))
  end.

Definition on_end (c : nat) : Action unit :=
  fun w =>
    match reading w !! c with
    | Some body => end_listener c body (with_reading (delete c (reading w)) w)
    | None => (tt, w)
    end.

(** How a promise settles. *)
Inductive Outcome : Type :=
| Resolved
| Rejected (error : Thrown).

(** The [.then] and [.catch] callbacks on the promise of [runAgent]. *)
Definition settled (o : Outcome) : Action unit :=
  match o with
  | Resolved =>
      setState {| set_thinking := Some false;
                  set_status := None; set_instructions := None;
                  set_messages := None; set_errorMsg := None;
                  set_abortController := None |}
  | Rejected error =>
      logger_error "[HttpServer] runAgent error:";;
      match error_message error with
      | Some msg =>
          setState {| set_thinking := Some false;
                      set_status := Some ERROR;
                      set_errorMsg := Some msg;
                      set_instructions := None; set_messages := None;
                      set_abortController := None |}
      | None => mret tt   (* reading error.message threw *)
      end
  end.

Definition on_settle (r : nat) (o : Outcome) : Action unit :=
  fun w =>
    match pending w !! r with
    | Some _ => settled o (with_runs (runs w) (delete r (pending w)) w)
    | None => (tt, w)
    end.

(** One turn of the event loop. *)
Inductive Event : Type :=
| Request (req : IncomingMessage)    (* the listener's 'request' event *)
| Data (c : nat) (chunk : string)    (* 'data' on the request of [c] *)
| End (c : nat)                      (* 'end' on the request of [c] *)
| Settle (r : nat) (o : Outcome)     (* the promise of run [r] settles *)
| RunnerSetState (p : PartialState)  (* the runner calls setState *)
| SetConfig (p : PartialConfig)
| Start
| Stop.

Definition step (w : World) (e : Event) : World :=
  match e with
  | Request req =>
      exec (handleRequest (connections w) req)
           (with_connections (S (connections w)) w)
  | Data c chunk => exec (on_data c chunk) w
  | End c => exec (on_end c) w
  | Settle r o => exec (on_settle r o) w
  | RunnerSetState p => exec (setState p) w
  | SetConfig p => exec (setConfig p) w
  | Start => exec start w
  | Stop => exec stop w
  end.

Definition run (w : World) (es : list Event) : World := foldl step w es.

End Service.

(** ** A reference [JSON.parse]

    The theorems below hold for whatever [JSON.parse] the engine provides.
    To run the service on concrete request bodies, here is a parser of the
    JSON grammar (ECMA-404) on byte strings: an escape [\uXXXX] is stored as
    the UTF-8 bytes of that code unit, and the message of the SyntaxError is
    one fixed text. *)
Module JSON.

Local Open Scope char_scope.

Definition is_ws (c : ascii) : bool :=
  match c with
  | " " | "009" | "010" | "013" => true
  | _ => false
  end.

Fixpoint skip_ws (cs : list ascii) : list ascii :=
  match cs with
  | c :: rest => if is_ws c then skip_ws rest else cs
  | [] => []
  end.

Definition digit (c : ascii) : option Z :=
  let n := nat_of_ascii c in
  if (48 <=? n)%nat && (n <=? 57)%nat then Some (Z.of_nat (n - 48)) else None.

Definition hex (c : ascii) : option nat :=
  let n := nat_of_ascii c in
  if (48 <=? n)%nat && (n <=? 57)%nat then Some (n - 48)%nat
  else if (65 <=? n)%nat && (n <=? 70)%nat then Some (n - 55)%nat
  else if (97 <=? n)%nat && (n <=? 102)%nat then Some (n - 87)%nat
  else None.

(** The UTF-8 bytes of a code unit below 65536. *)
Definition utf8 (n : nat) : list ascii :=
  if (n <? 128)%nat then [ascii_of_nat n]
  else if (n <? 2048)%nat
  then [ascii_of_nat (192 + n / 64); ascii_of_nat (128 + n mod 64)]
  else [ascii_of_nat (224 + n / 4096);
        ascii_of_nat (128 + (n / 64) mod 64);
        ascii_of_nat (128 + n mod 64)].

(** The characters after an opening quote, up to the closing one. *)
Fixpoint string_body (cs : list ascii) : option (list ascii * list ascii) :=
  let cons_to (bytes : list ascii) (r : option (list ascii * list ascii)) :=
    match r with
    | Some (s, rest) => Some ((bytes ++ s)%list, rest)
    | None => None
    end in
  match cs with
  | [] => None
  | "034" :: rest => Some ([], rest)
  | "\" :: "034" :: rest => cons_to ["034"] (string_body rest)
  | "\" :: "\" :: rest => cons_to ["\"] (string_body rest)
  | "\" :: "/" :: rest => cons_to ["/"] (string_body rest)
  | "\" :: "b" :: rest => cons_to ["008"] (string_body rest)
  | "\" :: "f" :: rest => cons_to ["012"] (string_body rest)
  | "\" :: "n" :: rest => cons_to ["010"] (string_body rest)
  | "\" :: "r" :: rest => cons_to ["013"] (string_body rest)
  | "\" :: "t" :: rest => cons_to ["009"] (string_body rest)
  | "\" :: "u" :: a :: b :: c :: d :: rest =>
      match hex a, hex b, hex c, hex d with
      | Some x3, Some x2, Some x1, Some x0 =>
          cons_to (utf8 (((x3 * 16 + x2) * 16 + x1) * 16 + x0))
                  (string_body rest)
      | _, _, _, _ => None
      end
  | "\" :: _ => None
  | c :: rest =>
      if (nat_of_ascii c <? 32)%nat then None
      else cons_to [c] (string_body rest)
  end.

(** Zero or more digits: their value on top of [acc], and how many. *)
Fixpoint digits (acc : Z) (count : nat) (cs : list ascii) : Z * nat * list ascii :=
  match cs with
  | c :: rest =>
      match digit c with
      | Some d => digits (acc * 10 + d) (S count) rest
      | None => (acc, count, cs)
      end
  | [] => (acc, count, cs)
  end.

Definition number (cs : list ascii) : option (JSValue * list ascii) :=
  let '(negative, cs) :=
    match cs with "-" :: rest => (true, rest) | _ => (false, cs) end in
  let int_part :=
    match cs with
    | "0" :: rest => Some (0%Z, rest)
    | c :: _ =>
        match digit c with
        | Some _ => let '(n, _, rest) := digits 0 0 cs in Some (n, rest)
        | None => None
        end
    | [] => None
    end in
  match int_part with
  | None => None
  | Some (n, cs) =>
      let frac_part :=
        match cs with
        | "." :: rest =>
            let '(m, k, rest') := digits n 0 rest in
            if (k =? 0)%nat then None else Some (m, Z.of_nat k, rest')
        | _ => Some (n, 0%Z, cs)
        end in
      match frac_part with
      | None => None
      | Some (m, k, cs) =>
          let signed := if negative then (- m)%Z else m in
          match cs with
          | "e" :: rest | "E" :: rest =>
              let '(minus, rest) :=
                match rest with
                | "-" :: r => (true, r)
                | "+" :: r => (false, r)
                | _ => (false, rest)
                end in
              let '(e, j, rest') := digits 0 0 rest in
              if (j =? 0)%nat then None
              else Some (JNumber signed ((if minus then - e else e) - k)%Z, rest')
          | _ => Some (JNumber signed (- k)%Z, cs)
          end
      end
  end.

Fixpoint value (fuel : nat) (cs : list ascii) : option (JSValue * list ascii) :=
  match fuel with
  | O => None
  | S fuel =>
      match skip_ws cs with
      | "n" :: "u" :: "l" :: "l" :: rest => Some (JNull, rest)
      | "t" :: "r" :: "u" :: "e" :: rest => Some (JBool true, rest)
      | "f" :: "a" :: "l" :: "s" :: "e" :: rest => Some (JBool false, rest)
      | "034" :: rest =>
          match string_body rest with
          | Some (s, rest') => Some (JString (string_of_list_ascii s), rest')
          | None => None
          end
      | "[" :: rest =>
          match skip_ws rest with
          | "]" :: rest' => Some (JArray [], rest')
          | _ =>
              match elements fuel rest with
              | Some (vs, rest') => Some (JArray vs, rest')
              | None => None
              end
          end
      | "{" :: rest =>
          match skip_ws rest with
          | "}" :: rest' => Some (JObject [], rest')
          | _ =>
              match members fuel rest with
              | Some (ms, rest') => Some (JObject ms, rest')
              | None => None
              end
          end
      | other => number other
      end
  end
with elements (fuel : nat) (cs : list ascii) : option (list JSValue * list ascii) :=
  match fuel with
  | O => None
  | S fuel =>
      match value fuel cs with
      | Some (v, rest) =>
          match skip_ws rest with
          | "]" :: rest' => Some ([v], rest')
          | "," :: rest' =>
              match elements fuel rest' with
              | Some (vs, rest'') => Some (v :: vs, rest'')
              | None => None
              end
          | _ => None
          end
      | None => None
      end
  end
with members (fuel : nat) (cs : list ascii)
     : option (list (string * JSValue) * list ascii) :=
  match fuel with
  | O => None
  | S fuel =>
      match skip_ws cs with
      | "034" :: rest =>
          match string_body rest with
          | Some (k, rest1) =>
              match skip_ws rest1 with
              | ":" :: rest2 =>
                  match value fuel rest2 with
                  | Some (v, rest3) =>
                      match skip_ws rest3 with
                      | "}" :: rest' =>
                          Some ([(string_of_list_ascii k, v)], rest')
                      | "," :: rest' =>
                          match members fuel rest' with
                          | Some (ms, rest'') =>
                              Some ((string_of_list_ascii k, v) :: ms, rest'')
                          | None => None
                          end
                      | _ => None
                      end
                  | None => None
                  end
              | _ => None
              end
          | None => None
          end
      | _ => None
      end
  end.

Definition syntax_error : Thrown :=
  ErrorInstance "Unexpected token in JSON"%string.

Definition parse (text : string) : Thrown + JSValue :=
  let cs := list_ascii_of_string text in
  match value (2 * List.length cs + 2) cs with
  | Some (v, rest) =>
      match skip_ws rest with
      | [] => inr v
      | _ => inl syntax_error
      end
  | None => inl syntax_error
  end.

End JSON.

(** ** Notions the specification speaks of *)

(** A request passes authentication when the handler's 401 test fails. *)
Definition authenticated (cfg : HttpServerConfig) (req : IncomingMessage) : bool :=
  negb (apiKey_configured cfg
        && strict_neq (headers req !! "x-api-key") (apiKey cfg)).


(** Nothing that concerns runs differs between two worlds. *)
Definition same_runs (w w' : World) : Prop :=
  store w' = store w /\ controllers w' = controllers w
  /\ aborted w' = aborted w /\ runs w' = runs w /\ pending w' = pending w.

(** The claims that the code does not bear out, in the words of the
    specification. *)

(** Whenever the body parses, [instructions] is there and is a string, and
    no run is going on, the answer is 200 "Agent started". *)
Definition accepts_every_string
    (JSON_parse : string -> Thrown + JSValue) (msg : string) : Prop :=
  forall w c body data instr,
    reading w !! c = Some body ->
    JSON_parse (or_empty_object body) = inr data ->
    instructions_of data = JString instr ->
    thinking (store w) = false ->
    status (store w) <> RUNNING ->
    sent (step JSON_parse msg w (End c))
    = (c, json_response 200 (agent_started instr)) :: sent w.

(** Whenever the body parses, the answer is 400 exactly when
    [instructions] is absent or is not a string. *)
Definition bad_request_iff_no_string
    (JSON_parse : string -> Thrown + JSValue) (msg : string) : Prop :=
  forall w c body data,
    reading w !! c = Some body ->
    JSON_parse (or_empty_object body) = inr data ->
    (sent (step JSON_parse msg w (End c))
     = (c, json_response 400 bad_request) :: sent w
     <-> instructions_of data = JUndefined
         \/ (forall s, instructions_of data <> JString s)).

(** Whenever the body is not valid JSON, the answer is 500. *)
Definition invalid_json_gives_500
    (JSON_parse : string -> Thrown + JSValue) (msg : string) : Prop :=
  forall w c body error,
    reading w !! c = Some body ->
    JSON_parse body = inl error ->
    exists text,
      sent (step JSON_parse msg w (End c))
      = (c, json_response 500 (internal_error text)) :: sent w.

(** After a [setConfig] that changes the configuration the listener is the
    one the merged configuration asks for. *)
Definition listener_follows_config : Prop :=
  forall w p,
    let w' := exec (setConfig p) w in
    config w' <> config w ->
    server w' = if is_enabled (config w')
                then Some (mkListener (port (config w')) (host (config w')))
                else None.

(** Every controller that the world refers to has been created. *)
Definition controllers_created (w : World) : Prop :=
  (forall a, abortController (store w) = Some a -> a < controllers w)
  /\ (forall a, a ∈ aborted w -> a < controllers w).

(** ** Worlds and requests to run the service on *)

Definition store_at_rest : RunState :=
  {| status := IDLE; thinking := false; instructions := None;
     messages := Some []; errorMsg := None; abortController := None |}.

(** The service as constructed, before any call. *)
Definition new_service : World :=
  {| config := DEFAULT_CONFIG; server := None; store := store_at_rest;
     controllers := 0; aborted := ∅; runs := 0; pending := ∅;
     connections := 0; reading := ∅; sent := []; log := [] |}.

Definition request (m u : string) : IncomingMessage :=
  {| method := m; url := u; headers := ∅ |}.

Definition request_with_key (m u k : string) : IncomingMessage :=
  {| method := m; url := u; headers := {[ "x-api-key" := k ]} |}.

Definition quoted (s : string) : string :=
  String "034" s ++ String "034" EmptyString.

(** The text of an object whose only member is [instructions]. *)
Definition run_body (instr : string) : string :=
  "{" ++ quoted "instructions" ++ ":" ++ quoted instr ++ "}".

(** The service with the reference parser. *)
Definition null_message : string := "Cannot destructure property of null".
Definition step_ref : World -> Event -> World := step JSON.parse null_message.
Definition run_ref : World -> list Event -> World := run JSON.parse null_message.

(** A POST /run without a key has arrived at the new service and [body]
    has been read. *)
Definition reading_body (body : string) : World :=
  run_ref new_service [Request (request "POST" "/run"); Data 0 body].

(** A run was accepted, and the body of a second POST /run has been read. *)
Definition busy_reading (body : string) : World :=
  run_ref new_service
    [Request (request "POST" "/run"); Data 0 (run_body "Open Calculator app");
     End 0; Request (request "POST" "/run"); Data 1 body].

(** A run was accepted and has not settled. *)
Definition running_agent : World :=
  run_ref new_service
    [Request (request "POST" "/run"); Data 0 (run_body "Open Calculator app");
     End 0].

Definition only_enabled (b : bool) : PartialConfig :=
  {| set_enabled := Some (Some b); set_port := None; set_host := None;
     set_apiKey := None |}.
Definition only_port (n : N) : PartialConfig :=
  {| set_enabled := None; set_port := Some (Some n); set_host := None;
     set_apiKey := None |}.
Definition only_apiKey (k : string) : PartialConfig :=
  {| set_enabled := None; set_port := None; set_host := None;
     set_apiKey := Some (Some k) |}.

(** The service with the key s3cret configured. *)
Definition with_key : World :=
  step_ref new_service (SetConfig (only_apiKey "s3cret")).

(** ** The settings routes

    The second half of the source: [httpServerRoute], the procedures through
    which the settings page reaches the service. *)

(** Modelled from the spec: [SettingStore] is declared in
    [@main/store/setting], outside the sources at hand; the spec gives it as
    a provider that persists typed key-value settings.  Of its keys the
    routes touch these four; a key never written is undefined. *)
Record Settings : Type := mkSettings {
  httpServerEnabled : option bool;
  httpServerPort : option N;
  httpServerHost : option string;
  httpServerApiKey : option string;
}.

(** The main process as the routes see it: the service and the settings. *)
Record App : Type := mkApp {
  service : World;
  settings : Settings;
}.

(** [if (value !== undefined) SettingStore.set(key, value)] for one key of
    the input: only a key that is there with a value is written. *)
Definition persist {A : Type} (cur : option A) (input : option (option A)) : option A :=
  match input with
  | Some (Some v) => Some v
  | _ => cur
  end.

Module httpServerRoute.

(** [getHttpServerConfig] *)
Definition getHttpServerConfig (app : App) : HttpServerConfig * App :=
  (fst (getConfig (service app)), app).

(** [setHttpServerConfig]: the four conditional writes to the settings,
    then [setConfig(input)] with the input as it came, and the
    configuration as the result. *)
Definition setHttpServerConfig (input : PartialConfig) (app : App)
  : HttpServerConfig * App :=
  let stored :=
    {| httpServerEnabled :=
         persist (httpServerEnabled (settings app)) (set_enabled input);
       httpServerPort :=
         persist (httpServerPort (settings app)) (set_port input);
       httpServerHost :=
         persist (httpServerHost (settings app)) (set_host input);
       httpServerApiKey :=
         persist (httpServerApiKey (settings app)) (set_apiKey input) |} in
  let w := exec (setConfig input) (service app) in
  (fst (getConfig w), mkApp w stored).

(** [startHttpServer]: [setConfig] with the stored port, host and key and
    [enabled: true], all four keys present, then the flag is stored. *)
Definition startHttpServer (app : App) : HttpServerConfig * App :=
  let config := settings app in
  let w := exec (setConfig
                   {| set_enabled := Some (Some true);
                      set_port := Some (httpServerPort config);
                      set_host := Some (httpServerHost config);
                      set_apiKey := Some (httpServerApiKey config) |})
                (service app) in
  (fst (getConfig w),
   mkApp w {| httpServerEnabled := Some true;
              httpServerPort := httpServerPort config;
              httpServerHost := httpServerHost config;
              httpServerApiKey := httpServerApiKey config |}).

(** [stopHttpServer]; the result is [{ success: true }]. *)
Definition stopHttpServer (app : App) : bool * App :=
  let w := exec (setConfig
                   {| set_enabled := Some (Some false); set_port := None;
                      set_host := None; set_apiKey := None |})
                (service app) in
  (true,
   mkApp w {| httpServerEnabled := Some false;
              httpServerPort := httpServerPort (settings app);
              httpServerHost := httpServerHost (settings app);
              httpServerApiKey := httpServerApiKey (settings app) |}).

End httpServerRoute.

(** ** Further notions *)

(** The settings and the configuration in memory say the same. *)
Definition in_sync (app : App) : Prop :=
  enabled (config (service app)) = httpServerEnabled (settings app)
  /\ port (config (service app)) = httpServerPort (settings app)
  /\ host (config (service app)) = httpServerHost (settings app)
  /\ apiKey (config (service app)) = httpServerApiKey (settings app).


(** The turns that neither belong to the runner nor are a POST /stop: all
    other HTTP traffic, and the configuration calls. *)
Definition keeps_gate (e : Event) : bool :=
  match e with
  | Request req =>
      negb (String.eqb (method req) "POST" && String.eqb (url req) "/stop")
  | Data _ _ | End _ | SetConfig _ | Start | Stop => true
  | Settle _ _ | RunnerSetState _ => false
  end.

(** The requests answered so far. *)
Definition answered (w : World) : list nat := map fst (sent w).

(** Every request received is either still read or answered, never both,
    and none is answered twice. *)
Definition each_request_once (w : World) : Prop :=
  NoDup (answered w)
  /\ (forall c, c < connections w <->
                is_Some (reading w !! c) \/ c ∈ answered w)
  /\ (forall c, is_Some (reading w !! c) -> c ∉ answered w).


(** The responses the handler can write. *)
Definition well_formed_response (r : Response) : Prop :=
  (statusCode r = 200 /\ responseHeaders r = cors_headers /\ payload r = None)
  \/ (responseHeaders r
       = (cors_headers ++ [("Content-Type", "application/json")])%list
       /\ exists data, payload r = Some data
          /\ (statusCode r = 200 \/ statusCode r = 400 \/ statusCode r = 401
              \/ statusCode r = 404 \/ statusCode r = 409
              \/ statusCode r = 500)).

(** A service that listens on port 9527 with a run going on. *)
Definition listening_agent : World :=
  run_ref new_service
    [SetConfig (only_enabled true); Request (request "POST" "/run");
     Data 0 (run_body "Open Calculator app"); End 0].


(** The settings as the defaults of the service would be stored. *)
Definition default_settings : Settings :=
  mkSettings (Some false) (Some 9527%N) (Some "127.0.0.1") None.

(** The new service beside settings that say the same. *)
Definition new_app : App := mkApp new_service default_settings.

(** The service enabled through the route: it listens on port 9527. *)
Definition listening_app : App :=
  snd (httpServerRoute.setHttpServerConfig (only_enabled true) new_app).

(** ** The examples of the specification *)

Example run_calculator :
  let w := run_ref new_service
             [Request (request "POST" "/run");
              Data 0 (run_body "Open Calculator app"); End 0] in
  sent w = [(0, json_response 200 (agent_started "Open Calculator app"))]
  /\ thinking (store w) = true /\ errorMsg (store w) = None.
Proof. vm_compute. auto. Qed.

Example run_while_thinking :
  let w1 := run_ref new_service
              [Request (request "POST" "/run");
               Data 0 (run_body "Open Calculator app"); End 0] in
  let w2 := run_ref w1
              [Request (request "POST" "/run");
               Data 1 (run_body "Open Notes"); End 1] in
  sent w2 = (1, json_response 409 conflict) :: sent w1
  /\ instructions (store w2) = Some "Open Calculator app"
  /\ abortController (store w2) = abortController (store w1).
Proof. vm_compute. auto. Qed.

Example run_empty_object :
  sent (run_ref new_service
          [Request (request "POST" "/run"); Data 0 "{}"; End 0])
  = [(0, json_response 400 bad_request)].
Proof. reflexivity. Qed.

Example run_malformed :
  sent (run_ref new_service
          [Request (request "POST" "/run"); Data 0 "{"; End 0])
  = [(0, json_response 500 (internal_error "Unexpected token in JSON"))].
Proof. reflexivity. Qed.

Example run_null :
  sent (run_ref new_service
          [Request (request "POST" "/run"); Data 0 "null"; End 0])
  = [(0, json_response 500
           (internal_error "Cannot destructure property of null"))].
Proof. reflexivity. Qed.

Example stop_without_run :
  let w := step_ref new_service (Request (request "POST" "/stop")) in
  sent w = [(0, json_response 200 agent_stopped)]
  /\ status (store w) = END.
Proof. vm_compute. auto. Qed.

Example setConfig_port :
  fst (getConfig (step_ref new_service (SetConfig (only_port 8080))))
  = {| enabled := Some false; port := Some 8080%N;
       host := Some "127.0.0.1"; apiKey := None |}.
Proof. reflexivity. Qed.

Example toggle_enabled :
  let on := only_enabled true in
  let off := only_enabled false in
  server (run_ref new_service [SetConfig on]) = Some (mkListener (Some 9527%N) (Some "127.0.0.1"))
  /\ server (run_ref new_service [SetConfig on; SetConfig off]) = None
  /\ server (run_ref new_service [SetConfig on; SetConfig off; SetConfig on])
     = Some (mkListener (Some 9527%N) (Some "127.0.0.1")).
Proof. vm_compute. auto. Qed.

(** ** Basic facts *)

Lemma strict_neq_true (a b : option string) : a <> b -> strict_neq a b = true.
Proof.
  destruct a as [x|], b as [y|]; simpl; intros H; try reflexivity.
  - apply negb_true_iff, String.eqb_neq. congruence.
  - congruence.
Qed.

Lemma strict_neq_false (a b : option string) : strict_neq a b = false -> a = b.
Proof.
  destruct a as [x|], b as [y|]; simpl; intros H; try discriminate.
  - apply negb_false_iff, String.eqb_eq in H. congruence.
  - reflexivity.
Qed.

Lemma StatusEnum_eqb_eq (a b : StatusEnum) : StatusEnum_eqb a b = true <-> a = b.
Proof.
  destruct a, b; simpl; split; intros H; try congruence; try reflexivity.
  - apply String.eqb_eq in H. congruence.
  - apply String.eqb_eq. congruence.
Qed.

Lemma not_cons_self {A : Type} (x : A) (l : list A) : l <> x :: l.
Proof.
  intros H. apply (f_equal (@List.length A)) in H. simpl in H. lia.
Qed.

(** The validation of the ['end'] listener lets through the strings that
    are not empty, and nothing else. *)
Lemma validation_spec (v : JSValue) :
  negb (truthy v) || negb (String.eqb (typeof v) "string") = false
  <-> exists s, v = JString s /\ s <> EmptyString.
Proof.
  split.
  - intros H. apply orb_false_elim in H as [Ht Hs].
    apply negb_false_iff in Ht, Hs.
    destruct v; simpl in Hs; try discriminate.
    simpl in Ht. apply negb_true_iff, String.eqb_neq in Ht. eauto.
  - intros (s & -> & Hs). simpl.
    apply String.eqb_neq in Hs. rewrite Hs. reflexivity.
Qed.

(** ** The request handler *)

Section Handler.

Variable JSON_parse : string -> Thrown + JSValue.
Variable cannot_destructure : string.

Local Abbreviation step' := (step JSON_parse cannot_destructure).
Local Abbreviation end_listener' :=
  (end_listener JSON_parse cannot_destructure).
Local Abbreviation parse_instructions' :=
  (parse_instructions JSON_parse cannot_destructure).

Local Ltac run_action :=
  unfold exec, mbind, mret, Action_bind, Action_ret, end_empty, sendJson,
    respond, getState, setState, abort, new_AbortController, runAgent,
    then_catch, logger_info, logger_warn, logger_error, merge_state;
  cbn.

(** What [handleRequest] does with a request that is not OPTIONS and
    passes the key check. *)
Lemma request_routed w req :
  method req <> "OPTIONS" ->
  authenticated (config w) req = true ->
  step' w (Request req)
  = exec
      (let c := connections w in
       if String.eqb (method req) "GET" && String.eqb (url req) "/health"
       then sendJson c 200 [("status", FString "ok");
                            ("agentStatus", FStatus (status (store w)));
                            ("isRunning", FBool (thinking (store w)))]
       else if String.eqb (method req) "GET" && String.eqb (url req) "/status"
       then sendJson c 200
              [("status", FStatus (status (store w)));
               ("instructions", optional_string (instructions (store w)));
               ("isRunning", FBool (thinking (store w)));
               ("messageCount", FNumber (messageCount (store w)))]
       else if String.eqb (method req) "POST" && String.eqb (url req) "/run"
       then fun w' => (tt, with_reading (<[c := EmptyString]> (reading w')) w')
       else if String.eqb (method req) "POST" && String.eqb (url req) "/stop"
       then
         setState {| set_status := Some END; set_thinking := Some false;
                     set_instructions := None; set_messages := None;
                     set_errorMsg := None; set_abortController := None |};;
         abort (abortController (store w));;
         sendJson c 200 agent_stopped
       else sendJson c 404 not_found)
      (with_connections (S (connections w)) w).
Proof.
  intros Hm Ha. apply String.eqb_neq in Hm.
  unfold authenticated in Ha. apply negb_true_iff in Ha.
  unfold step, exec, handleRequest. cbn.
  rewrite Hm, Ha.
  repeat match goal with
         | |- context [if ?b then _ else _] => destruct b
         end; reflexivity.
Qed.

(** A request that fails the key check gets 401 and nothing else happens. *)
Lemma request_refused w req :
  method req <> "OPTIONS" ->
  authenticated (config w) req = false ->
  step' w (Request req)
  = exec (sendJson (connections w) 401 unauthorized)
         (with_connections (S (connections w)) w).
Proof.
  intros Hm Ha. apply String.eqb_neq in Hm.
  unfold authenticated in Ha. apply negb_false_iff in Ha.
  unfold step, exec, handleRequest. cbn.
  rewrite Hm, Ha. reflexivity.
Qed.

(** OPTIONS is answered before anything else is looked at. *)
Lemma request_options w req :
  method req = "OPTIONS" ->
  step' w (Request req)
  = exec (end_empty (connections w)) (with_connections (S (connections w)) w).
Proof.
  intros Hm. unfold step, exec, handleRequest. rewrite Hm. reflexivity.
Qed.

(** C8: handling GET /health or GET /status, whatever the answer,
    changes no field of the run state, nor any controller or run. *)
Theorem polling_reads_only w req :
  method req = "GET" ->
  url req = "/health" \/ url req = "/status" ->
  same_runs w (step' w (Request req)).
Proof.
  intros Hm Hu.
  assert (Hno : method req <> "OPTIONS") by (rewrite Hm; discriminate).
  destruct (authenticated (config w) req) eqn:Ha.
  - rewrite (request_routed _ _ Hno Ha), Hm.
    destruct Hu as [-> | ->]; cbn; repeat split.
  - rewrite (request_refused _ _ Hno Ha). cbn. repeat split.
Qed.

(** C6: an authenticated POST /stop sets status END and thinking false,
    aborts the stored controller when there is one, and answers 200
    "Agent stopped", in whatever state the store is. *)
Theorem stop_request w req :
  method req = "POST" ->
  url req = "/stop" ->
  authenticated (config w) req = true ->
  let w' := step' w (Request req) in
  store w' = {| status := END; thinking := false;
                instructions := instructions (store w);
                messages := messages (store w);
                errorMsg := errorMsg (store w);
                abortController := abortController (store w) |}
  /\ aborted w' = match abortController (store w) with
                  | Some a => {[a]} ∪ aborted w
                  | None => aborted w
                  end
  /\ sent w' = (connections w, json_response 200 agent_stopped) :: sent w.
Proof.
  intros Hm Hu Ha.
  assert (Hno : method req <> "OPTIONS") by (rewrite Hm; discriminate).
  cbv zeta. rewrite (request_routed _ _ Hno Ha), Hm, Hu. cbn.
  destruct (abortController (store w)) eqn:E; run_action;
    rewrite ?E; repeat split.
Qed.

(** The requests that pass the key check. *)
Lemma authenticated_spec cfg req :
  authenticated cfg req = true
  <-> apiKey cfg = None \/ apiKey cfg = Some EmptyString
      \/ headers req !! "x-api-key" = apiKey cfg.
Proof.
  unfold authenticated. rewrite negb_true_iff, andb_false_iff. split.
  - intros [Hk | Hh].
    + unfold apiKey_configured in Hk. destruct (apiKey cfg) as [k|]; [|auto].
      apply negb_false_iff, String.eqb_eq in Hk. subst k. auto.
    + apply strict_neq_false in Hh. auto.
  - intros [Hk | [Hk | Hh]].
    + left. unfold apiKey_configured. rewrite Hk. reflexivity.
    + left. unfold apiKey_configured. rewrite Hk. reflexivity.
    + destruct (strict_neq (headers req !! "x-api-key") (apiKey cfg)) eqn:E;
        [|auto].
      rewrite Hh in E. destruct (apiKey cfg) as [k|]; simpl in E.
      * rewrite String.eqb_refl in E. discriminate.
      * discriminate.
Qed.

(** A body is in [reading] only for a POST /run that passed the key check,
    empty when the request comes in and longer by each chunk; the turns
    other than ['end'] leave the bodies alone. *)
Lemma reading_origin w e c body :
  reading (step' w e) !! c = Some body ->
  reading w !! c = Some body
  \/ (exists req, e = Request req /\ c = connections w /\ body = EmptyString
        /\ method req = "POST" /\ url req = "/run"
        /\ authenticated (config w) req = true)
  \/ (exists chunk old, e = Data c chunk /\ reading w !! c = Some old
        /\ body = old ++ chunk).
Proof.
  destruct e as [req|c0 chunk|c0|r0 o|p|p| |].
  - destruct (String.eqb (method req) "OPTIONS") eqn:Hm.
    + apply String.eqb_eq in Hm. rewrite (request_options _ _ Hm). cbn. auto.
    + apply String.eqb_neq in Hm.
      destruct (authenticated (config w) req) eqn:Ha.
      * rewrite (request_routed _ _ Hm Ha). cbv zeta.
        destruct (String.eqb (method req) "GET" && String.eqb (url req) "/health");
          [cbn; auto|].
        destruct (String.eqb (method req) "GET" && String.eqb (url req) "/status");
          [cbn; auto|].
        destruct (String.eqb (method req) "POST" && String.eqb (url req) "/run")
          eqn:Hrun.
        -- cbn. rewrite lookup_insert. case_decide; [|auto].
           intros [= <-]. right. left. exists req.
           apply andb_true_iff in Hrun as [H1 H2].
           apply String.eqb_eq in H1, H2. auto 10.
        -- destruct (String.eqb (method req) "POST" && String.eqb (url req) "/stop");
             run_action; [|auto].
           destruct (abortController (store w)); cbn; auto.
      * rewrite (request_refused _ _ Hm Ha). cbn. auto.
  - unfold step, exec, on_data.
    destruct (reading w !! c0) as [old|] eqn:Hold; cbn; [|auto].
    rewrite lookup_insert. case_decide; [|auto].
    subst c0. intros [= <-]. right. right. eauto.
  - unfold step, exec, on_end.
    destruct (reading w !! c0) as [old|] eqn:Hold; cbn; [|auto].
    assert (Hr : forall w0, reading (exec (end_listener' c0 old) w0) = reading w0).
    { intros w0. unfold exec, end_listener, catch_run.
      repeat (first [case_match | progress run_action | progress simplify_eq]);
        reflexivity. }
    unfold exec in Hr. rewrite Hr. cbn.
    rewrite lookup_delete. case_decide; [discriminate|auto].
  - unfold step, exec, on_settle, settled.
    repeat (first [case_match | progress run_action | progress simplify_eq]);
      cbn; auto.
  - cbn. auto.
  - unfold step, exec, setConfig, start, stop.
    repeat (first [case_match | progress run_action | progress simplify_eq]);
      cbn; auto.
  - unfold step, exec, start. repeat case_match; cbn; auto.
  - unfold step, exec, stop. repeat case_match; cbn; auto.
Qed.

(** *** The ['end'] listener of /run *)

Lemma end_step w c body :
  reading w !! c = Some body ->
  step' w (End c)
  = exec (end_listener' c body) (with_reading (delete c (reading w)) w).
Proof. intros H. unfold step, exec, on_end. rewrite H. reflexivity. Qed.

Lemma parse_string body data instr :
  JSON_parse (or_empty_object body) = inr data ->
  instructions_of data = JString instr ->
  parse_instructions' body = inr (JString instr).
Proof.
  intros Hp Hi. unfold parse_instructions. rewrite Hp.
  destruct data; simpl in *; try discriminate; congruence.
Qed.

Lemma parse_value body data :
  JSON_parse (or_empty_object body) = inr data ->
  data <> JNull -> data <> JUndefined ->
  parse_instructions' body = inr (instructions_of data).
Proof.
  intros Hp Hn Hu. unfold parse_instructions. rewrite Hp.
  destruct data; simpl; congruence.
Qed.

Lemma listener_throws c body error w :
  parse_instructions' body = inl error ->
  exec (end_listener' c body) w = exec (catch_run c error) w.
Proof. intros H. unfold end_listener. rewrite H. reflexivity. Qed.

Lemma listener_invalid c body v w :
  parse_instructions' body = inr v ->
  (forall s, v = JString s -> s = EmptyString) ->
  exec (end_listener' c body) w = exec (sendJson c 400 bad_request) w.
Proof.
  intros H Hv. unfold end_listener. rewrite H.
  destruct (negb (truthy v) || negb (String.eqb (typeof v) "string")) eqn:E;
    [reflexivity|].
  apply validation_spec in E as (s & -> & Hs).
  destruct Hs. apply (Hv s). reflexivity.
Qed.

Lemma listener_valid c body instr w :
  parse_instructions' body = inr (JString instr) ->
  instr <> EmptyString ->
  exec (end_listener' c body) w
  = exec (if thinking (store w) || StatusEnum_eqb (status (store w)) RUNNING
          then sendJson c 409 conflict
          else
            a ← new_AbortController;
            setState {| set_instructions := Some (Some instr);
                        set_abortController := Some (Some a);
                        set_thinking := Some true;
                        set_errorMsg := Some None;
                        set_status := None; set_messages := None |};;
            r ← runAgent;
            then_catch r c;;
            sendJson c 200 (agent_started instr)) w.
Proof.
  intros H Hs. unfold end_listener. rewrite H.
  assert (E : negb (truthy (JString instr))
              || negb (String.eqb (typeof (JString instr)) "string") = false)
    by (apply validation_spec; eauto).
  rewrite E. reflexivity.
Qed.

(** C1, amended: when the body of an authenticated POST /run parses,
    [instructions] is a string that is not empty, and the store has
    thinking false and a status other than RUNNING, the listener answers
    200 "Agent started" with the string, and leaves in the store the
    string, a controller created in this very step, thinking true and
    errorMsg null, the other fields as they were.  The run it started is
    still pending when the answer is out.  The new controller is none of
    those the world knew and its signal is not aborted. *)
Theorem run_starts_agent w c body data instr :
  reading w !! c = Some body ->
  JSON_parse (or_empty_object body) = inr data ->
  instructions_of data = JString instr ->
  instr <> EmptyString ->
  thinking (store w) = false ->
  status (store w) <> RUNNING ->
  let w' := step' w (End c) in
  sent w' = (c, json_response 200 (agent_started instr)) :: sent w
  /\ store w' = {| status := status (store w); thinking := true;
                   instructions := Some instr;
                   messages := messages (store w);
                   errorMsg := None;
                   abortController := Some (controllers w) |}
  /\ controllers w' = S (controllers w)
  /\ aborted w' = aborted w
  /\ runs w' = S (runs w)
  /\ pending w' = <[runs w := c]> (pending w)
  /\ (controllers_created w ->
      abortController (store w) <> Some (controllers w)
      /\ controllers w ∉ aborted w).
Proof.
  intros Hr Hp Hi Hs Ht Hst. cbv zeta.
  rewrite (end_step _ _ _ Hr),
    (listener_valid _ _ _ _ (parse_string _ _ _ Hp Hi) Hs).
  cbn. rewrite Ht.
  destruct (StatusEnum_eqb (status (store w)) RUNNING) eqn:E;
    [apply StatusEnum_eqb_eq in E; contradiction|].
  run_action. repeat split.
  - intros Ha. apply (proj1 H) in Ha. lia.
  - intros Ha. apply (proj2 H) in Ha. lia.
Qed.

(** C2: when the body of an authenticated POST /run passes the validation
    and the store has thinking true or status RUNNING at that moment, the
    listener answers 409 "Agent is already running" and changes no field
    of the run state, nor any controller or run. *)
Theorem run_conflict w c body data instr :
  reading w !! c = Some body ->
  JSON_parse (or_empty_object body) = inr data ->
  instructions_of data = JString instr ->
  instr <> EmptyString ->
  thinking (store w) = true \/ status (store w) = RUNNING ->
  let w' := step' w (End c) in
  sent w' = (c, json_response 409 conflict) :: sent w
  /\ same_runs w w'.
Proof.
  intros Hr Hp Hi Hs Hbusy. cbv zeta.
  rewrite (end_step _ _ _ Hr),
    (listener_valid _ _ _ _ (parse_string _ _ _ Hp Hi) Hs).
  cbn.
  assert (E : thinking (store w) || StatusEnum_eqb (status (store w)) RUNNING
              = true).
  { destruct Hbusy as [-> | ->]; [reflexivity|].
    apply orb_true_r. }
  rewrite E. cbn. unfold same_runs. cbn. repeat split.
Qed.

(** C4, amended: when the body of an authenticated POST /run parses to a
    value other than null, the listener answers 400 "instructions is
    required and must be a string" exactly when [instructions] is absent,
    is not a string, or is the empty string; and with that answer nothing
    of the run state changes. *)
Theorem run_bad_request w c body data :
  reading w !! c = Some body ->
  JSON_parse (or_empty_object body) = inr data ->
  data <> JNull -> data <> JUndefined ->
  let w' := step' w (End c) in
  (sent w' = (c, json_response 400 bad_request) :: sent w
   <-> instructions_of data = JUndefined
       \/ (forall s, instructions_of data <> JString s)
       \/ instructions_of data = JString EmptyString)
  /\ (sent w' = (c, json_response 400 bad_request) :: sent w ->
      same_runs w w').
Proof.
  intros Hr Hp Hn Hu. cbv zeta.
  rewrite (end_step _ _ _ Hr).
  pose proof (parse_value _ _ Hp Hn Hu) as Hv.
  destruct (instructions_of data) as [| | | |s| |] eqn:Hi;
    try (rewrite (listener_invalid _ _ _ _ Hv) by (intros ? [=]);
         cbn; unfold same_runs; cbn; split;
         [split; [intros _; right; left; intros ? [=] | reflexivity]
         | repeat split]).
  destruct (String.eqb s EmptyString) eqn:Es.
  - apply String.eqb_eq in Es. subst s.
    rewrite (listener_invalid _ _ _ _ Hv) by (intros ? [=]; congruence).
    cbn; unfold same_runs; cbn. split; [split; auto | repeat split].
  - apply String.eqb_neq in Es.
    rewrite (listener_valid _ _ _ _ Hv Es). cbn.
    assert (Hno : forall P : Prop,
               JString s = JUndefined
               \/ (forall s0, JString s <> JString s0)
               \/ JString s = JString EmptyString -> P).
    { intros P [H | [H | H]]; [discriminate | | congruence].
      destruct (H s). reflexivity. }
    destruct (thinking (store w)
              || StatusEnum_eqb (status (store w)) RUNNING);
      run_action; (split; [split; [intros [=] | apply Hno] | intros [=]]).
Qed.

(** C7, amended: when the body of an authenticated POST /run is not empty
    and is not valid JSON, the listener answers 500 with the message of
    the error that [JSON.parse] threw ("Unknown error" when it is not an
    Error), and changes nothing of the run state. *)
Theorem run_malformed_json w c body error :
  reading w !! c = Some body ->
  body <> EmptyString ->
  JSON_parse body = inl error ->
  let w' := step' w (End c) in
  sent w' = (c, json_response 500
                  (internal_error match error with
                                  | ErrorInstance message => message
                                  | _ => "Unknown error"
                                  end)) :: sent w
  /\ same_runs w w'.
Proof.
  intros Hr Hb Hp. cbv zeta.
  assert (Hpi : parse_instructions' body = inl error).
  { unfold parse_instructions, or_empty_object.
    apply String.eqb_neq in Hb. rewrite Hb, Hp. reflexivity. }
  rewrite (end_step _ _ _ Hr), (listener_throws _ _ _ _ Hpi).
  unfold catch_run, same_runs. run_action. repeat split.
Qed.

(** C10: a POST /run whose body is empty is parsed as the text of an
    empty object, so the listener answers 400 "instructions is required
    and must be a string", not 500, and changes nothing of the run
    state. *)
Theorem run_empty_body w c :
  JSON_parse "{}" = inr (JObject []) ->
  reading w !! c = Some EmptyString ->
  let w' := step' w (End c) in
  sent w' = (c, json_response 400 bad_request) :: sent w
  /\ same_runs w w'.
Proof.
  intros Hp Hr. cbv zeta.
  assert (Hv : parse_instructions' EmptyString = inr JUndefined).
  { unfold parse_instructions. cbn. rewrite Hp. reflexivity. }
  rewrite (end_step _ _ _ Hr),
    (listener_invalid _ _ _ _ Hv) by (intros ? [=]).
  cbn. unfold same_runs. cbn. repeat split.
Qed.

(** *** Responses *)

Lemma apiKey_configured_true cfg :
  apiKey_configured cfg = true
  <-> exists k, apiKey cfg = Some k /\ k <> EmptyString.
Proof.
  unfold apiKey_configured. destruct (apiKey cfg) as [k|].
  - rewrite negb_true_iff, String.eqb_neq. split; [eauto|].
    intros (k' & [= <-] & Hk). exact Hk.
  - split; [discriminate|]. intros (k & [=] & _).
Qed.

(** A turn sends at most one response, and a 401 only to a request other
    than OPTIONS whose key is not the configured one. *)
Lemma step_sent w e :
  sent (step' w e) = sent w
  \/ exists c r,
      sent (step' w e) = (c, r) :: sent w
      /\ (statusCode r = 401 ->
          apiKey_configured (config w) = true
          /\ exists req, e = Request req /\ method req <> "OPTIONS"
              /\ headers req !! "x-api-key" <> apiKey (config w)).
Proof.
  destruct e as [req|c chunk|c|r o|p|p| |].
  - destruct (String.eqb (method req) "OPTIONS") eqn:Hm.
    + apply String.eqb_eq in Hm. rewrite (request_options _ _ Hm).
      right. eexists _, _. split; [reflexivity|]. cbn. discriminate.
    + apply String.eqb_neq in Hm.
      destruct (authenticated (config w) req) eqn:Ha.
      * rewrite (request_routed _ _ Hm Ha). cbv zeta.
        repeat (first [case_match | progress run_action | progress simplify_eq]);
          try (left; reflexivity);
          right; eexists _, _; (split; [reflexivity|]); cbn; discriminate.
      * rewrite (request_refused _ _ Hm Ha).
        right. eexists _, _. split; [reflexivity|]. intros _.
        unfold authenticated in Ha.
        apply negb_false_iff, andb_true_iff in Ha as [Hk Hne].
        split; [exact Hk|]. exists req. repeat split; [exact Hm|].
        intros Heq. rewrite Heq in Hne.
        destruct (apiKey (config w)); simpl in Hne; [|discriminate].
        rewrite String.eqb_refl in Hne. discriminate.
  - left. unfold step, exec, on_data. case_match; reflexivity.
  - unfold step, exec, on_end, end_listener.
    unfold catch_run; repeat (first [case_match | progress run_action | progress simplify_eq]);
      try (left; reflexivity);
      right; eexists _, _; (split; [reflexivity|]); cbn; discriminate.
  - left. unfold step, exec, on_settle, settled.
    repeat (first [case_match | progress run_action | progress simplify_eq]); reflexivity.
  - left. reflexivity.
  - left. unfold step, exec, setConfig, start, stop.
    repeat case_match; run_action; reflexivity.
  - left. unfold step, exec, start. repeat case_match; reflexivity.
  - left. unfold step, exec, stop. repeat case_match; reflexivity.
Qed.


(** C3: with a key configured (not empty), a request other than OPTIONS
    whose X-API-Key header is missing or is another string gets 401
    "Unauthorized" and nothing of the run state changes; with no key
    configured no turn of the service sends a 401; an OPTIONS request gets
    200 without a body, whatever the key. *)
Theorem authentication w req :
  let c := connections w in
  let w' := step' w (Request req) in
  (forall k, apiKey (config w) = Some k -> k <> EmptyString ->
     method req <> "OPTIONS" ->
     headers req !! "x-api-key" <> Some k ->
     sent w' = (c, json_response 401 unauthorized) :: sent w
     /\ same_runs w w')
  /\ (apiKey (config w) = None \/ apiKey (config w) = Some EmptyString ->
      forall e c' r,
        sent (step' w e) = (c', r) :: sent w -> statusCode r <> 401)
  /\ (method req = "OPTIONS" ->
      sent w' = (c, mkResponse 200 cors_headers None) :: sent w
      /\ same_runs w w').
Proof.
  cbv zeta. split; [|split].
  - intros k Hk Hne Hm Hh.
    assert (Ha : authenticated (config w) req = false).
    { unfold authenticated. apply negb_false_iff, andb_true_iff. split.
      - apply apiKey_configured_true. eauto.
      - apply strict_neq_true. congruence. }
    rewrite (request_refused _ _ Hm Ha). cbn. unfold same_runs. cbn.
    repeat split.
  - intros Hnone e c' r Hs H401.
    destruct (step_sent w e) as [Heq | (c0 & r0 & Heq & Hr)].
    + rewrite Heq in Hs. exact (not_cons_self _ _ Hs).
    + rewrite Heq in Hs. injection Hs as <- <-.
      apply Hr in H401 as [Hk _].
      apply apiKey_configured_true in Hk as (k & Hk & Hne).
      destruct Hnone as [Hn | Hn]; congruence.
  - intros Hm. rewrite (request_options _ _ Hm). cbn.
    unfold same_runs. cbn. repeat split.
Qed.

(** *** Runs *)

Local Ltac crunch :=
  repeat (first [case_match | progress run_action | progress simplify_eq]).






(** The service only ever stores and aborts controllers it has created;
    the runner must do the same for its part. *)
Lemma controllers_created_step w e :
  controllers_created w ->
  (forall p a, e = RunnerSetState p ->
               set_abortController p = Some (Some a) -> a < controllers w) ->
  controllers_created (step' w e).
Proof.
  intros [Hstored Haborted] Hrunner.
  assert (Hold : forall a, abortController (store w) = Some a ->
                           a < S (controllers w))
    by (intros a Ha; apply Hstored in Ha; lia).
  assert (Hold' : forall a, a ∈ aborted w -> a < S (controllers w))
    by (intros a Ha; apply Haborted in Ha; lia).
  destruct e as [req|c0 chunk|c0|r0 o|p|p| |].
  - destruct (String.eqb (method req) "OPTIONS") eqn:Hm.
    + apply String.eqb_eq in Hm. rewrite (request_options _ _ Hm).
      split; cbn; assumption.
    + apply String.eqb_neq in Hm.
      destruct (authenticated (config w) req) eqn:Ha.
      * rewrite (request_routed _ _ Hm Ha). cbv zeta.
        unfold controllers_created. crunch; cbn; try (split; assumption).
        split; [assumption|].
        intros a0 [->%elem_of_singleton|Hin]%elem_of_union; auto.
      * rewrite (request_refused _ _ Hm Ha). split; cbn; assumption.
  - unfold step, exec, on_data. crunch; split; cbn; assumption.
  - unfold step, exec, on_end, end_listener, catch_run, controllers_created.
    crunch; cbn; try (split; assumption).
    split; [intros a0 [= <-]; lia | assumption].
  - unfold step, exec, on_settle, settled, controllers_created.
    crunch; cbn; split; assumption.
  - unfold controllers_created. run_action. split; [|assumption].
    destruct (set_abortController p) as [[a|]|] eqn:Hp; cbn;
      [intros a0 [= <-]; eapply Hrunner; eauto | discriminate | assumption].
  - unfold step, exec, setConfig, start, stop, controllers_created.
    crunch; cbn; split; assumption.
  - unfold step, exec, start, controllers_created. crunch; cbn; split; assumption.
  - unfold step, exec, stop, controllers_created. crunch; cbn; split; assumption.
Qed.

(** *** Configuration *)

(** C9, amended: [setConfig] merges the partial configuration into the
    current one key by key; a running listener is stopped when the merged
    configuration disables it, a listener is started at the merged host
    and port when there is none and the merged configuration enables it,
    and otherwise the listener stays as it is: one that runs and stays
    enabled keeps the address it was bound to.  [start] on a running
    service only logs a warning. *)
Theorem setConfig_applies w p :
  let w' := step' w (SetConfig p) in
  let merged := spread (config w) p in
  config w' = merged
  /\ (is_running w = true -> is_enabled merged = false -> server w' = None)
  /\ (is_running w = false -> is_enabled merged = true ->
      server w' = Some (mkListener (port merged) (host merged)))
  /\ (is_running w = is_enabled merged -> server w' = server w)
  /\ (is_running w = true ->
      server (step' w Start) = server w
      /\ config (step' w Start) = config w
      /\ log (step' w Start)
         = LogWarn "[HttpServer] Server already running" :: log w)
  /\ same_runs w w'.
Proof.
  cbv zeta. unfold step, exec, setConfig, start, stop, is_running, same_runs.
  cbn. destruct (server w) as [l|] eqn:Hs; cbn;
    destruct (is_enabled (spread (config w) p)); cbn; rewrite ?Hs; cbn;
    repeat split; intros; cbn; rewrite ?Hs;
    first [reflexivity | congruence].
Qed.

(** ** More about the handler *)

(** X1: A request that passes the key check and matches none of the four
    routes is answered 404 "Not Found"; nothing else happens. *)
Theorem unknown_route w req :
  method req <> "OPTIONS" ->
  authenticated (config w) req = true ->
  (method req = "GET" -> url req <> "/health" /\ url req <> "/status") ->
  (method req = "POST" -> url req <> "/run" /\ url req <> "/stop") ->
  let w' := step' w (Request req) in
  sent w' = (connections w, json_response 404 not_found) :: sent w
  /\ same_runs w w'
  /\ reading w' = reading w.
Proof.
  intros Hm Ha Hget Hpost. cbv zeta.
  rewrite (request_routed _ _ Hm Ha). cbv zeta.
  assert (E1 : String.eqb (method req) "GET" && String.eqb (url req) "/health"
               = false).
  { apply andb_false_iff.
    destruct (String.eqb (method req) "GET") eqn:E; [|auto].
    apply String.eqb_eq, Hget in E as [E _]. right.
    apply String.eqb_neq. exact E. }
  assert (E2 : String.eqb (method req) "GET" && String.eqb (url req) "/status"
               = false).
  { apply andb_false_iff.
    destruct (String.eqb (method req) "GET") eqn:E; [|auto].
    apply String.eqb_eq, Hget in E as [_ E]. right.
    apply String.eqb_neq. exact E. }
  assert (E3 : String.eqb (method req) "POST" && String.eqb (url req) "/run"
               = false).
  { apply andb_false_iff.
    destruct (String.eqb (method req) "POST") eqn:E; [|auto].
    apply String.eqb_eq, Hpost in E as [E _]. right.
    apply String.eqb_neq. exact E. }
  assert (E4 : String.eqb (method req) "POST" && String.eqb (url req) "/stop"
               = false).
  { apply andb_false_iff.
    destruct (String.eqb (method req) "POST") eqn:E; [|auto].
    apply String.eqb_eq, Hpost in E as [_ E]. right.
    apply String.eqb_neq. exact E. }
  rewrite E1, E2, E3, E4. unfold same_runs. cbn. repeat split.
Qed.

(** X2: GET /health and GET /status that pass the key check are answered 200
    with the status, the thinking flag, the instructions and the number of
    messages as the store has them; without a message list the count
    is 0. *)
Theorem poll_reports_state w req :
  method req = "GET" ->
  authenticated (config w) req = true ->
  let w' := step' w (Request req) in
  (url req = "/health" ->
   sent w' = (connections w,
              json_response 200
                [("status", FString "ok");
                 ("agentStatus", FStatus (status (store w)));
                 ("isRunning", FBool (thinking (store w)))]) :: sent w)
  /\ (url req = "/status" ->
      sent w' = (connections w,
                 json_response 200
                   [("status", FStatus (status (store w)));
                    ("instructions", optional_string (instructions (store w)));
                    ("isRunning", FBool (thinking (store w)));
                    ("messageCount",
                     FNumber match messages (store w) with
                             | Some l => List.length l
                             | None => 0
                             end)]) :: sent w).
Proof.
  intros Hm Ha. cbv zeta.
  assert (Hno : method req <> "OPTIONS") by (rewrite Hm; discriminate).
  rewrite (request_routed _ _ Hno Ha), Hm.
  split; intros ->; reflexivity.
Qed.

(** X3: A request other than OPTIONS is answered 401 exactly when a key that is
    not empty is configured and the X-API-Key header is not that key. *)
Theorem unauthorized_iff w req :
  method req <> "OPTIONS" ->
  sent (step' w (Request req))
  = (connections w, json_response 401 unauthorized) :: sent w
  <-> exists k, apiKey (config w) = Some k /\ k <> EmptyString
                /\ headers req !! "x-api-key" <> Some k.
Proof.
  intros Hm. split.
  - intros Hs.
    destruct (step_sent w (Request req)) as [Heq | (c & r & Heq & H401)].
    + rewrite Heq in Hs. destruct (not_cons_self _ _ Hs).
    + rewrite Heq in Hs. injection Hs as -> ->.
      destruct (H401 eq_refl) as (Hk & req' & [= <-] & _ & Hne).
      apply apiKey_configured_true in Hk as (k & Hk & Hnk).
      exists k. rewrite Hk in Hne. auto.
  - intros (k & Hk & Hnk & Hne).
    assert (Ha : authenticated (config w) req = false).
    { unfold authenticated. apply negb_false_iff, andb_true_iff. split.
      - apply apiKey_configured_true. eauto.
      - apply strict_neq_true. congruence. }
    rewrite (request_refused _ _ Hm Ha). reflexivity.
Qed.

(** X4: Whatever the service answers carries the three CORS headers; it is
    either 200 without a body or a JSON body with one of the codes 200,
    400, 401, 404, 409 and 500. *)
Theorem responses_well_formed w e c r :
  sent (step' w e) = (c, r) :: sent w -> well_formed_response r.
Proof.
  assert (Hjson : forall code data,
             code = 200 \/ code = 400 \/ code = 401 \/ code = 404
             \/ code = 409 \/ code = 500 ->
             well_formed_response (json_response code data)).
  { intros code data Hc. right. split; [reflexivity|]. eauto. }
  assert (Hnone : forall x : nat * Response, sent w = x :: sent w -> False)
    by (intros x Hx; exact (not_cons_self _ _ Hx)).
  destruct e as [req|c0 chunk|c0|r0 o|p|p| |].
  - destruct (String.eqb (method req) "OPTIONS") eqn:Hm.
    + apply String.eqb_eq in Hm. rewrite (request_options _ _ Hm).
      cbn. intros [= <- <-]. left. auto.
    + apply String.eqb_neq in Hm.
      destruct (authenticated (config w) req) eqn:Ha.
      * rewrite (request_routed _ _ Hm Ha). cbv zeta.
        crunch; cbn; intros Hs; try (destruct (Hnone _ Hs));
          injection Hs as <- <-; apply Hjson; auto 10.
      * rewrite (request_refused _ _ Hm Ha). cbn.
        intros [= <- <-]. apply Hjson. auto 10.
  - unfold step, exec, on_data. crunch; cbn; intros Hs; destruct (Hnone _ Hs).
  - unfold step, exec, on_end, end_listener, catch_run.
    crunch; cbn; intros Hs; try (destruct (Hnone _ Hs));
      injection Hs as <- <-; apply Hjson; auto 10.
  - unfold step, exec, on_settle, settled.
    crunch; cbn; intros Hs; destruct (Hnone _ Hs).
  - cbn. intros Hs. destruct (Hnone _ Hs).
  - unfold step, exec, setConfig, start, stop.
    crunch; cbn; intros Hs; destruct (Hnone _ Hs).
  - unfold step, exec, start. crunch; cbn; intros Hs; destruct (Hnone _ Hs).
  - unfold step, exec, stop. crunch; cbn; intros Hs; destruct (Hnone _ Hs).
Qed.

(** X5: When the body of a POST /run is the JSON text null, the destructuring
    throws, and the listener answers 500 with the message of that TypeError;
    nothing of the run state changes. *)
Theorem run_null_body w c body :
  reading w !! c = Some body ->
  JSON_parse (or_empty_object body) = inr JNull ->
  let w' := step' w (End c) in
  sent w' = (c, json_response 500 (internal_error cannot_destructure)) :: sent w
  /\ same_runs w w'.
Proof.
  intros Hr Hp. cbv zeta.
  assert (Hpi : parse_instructions' body
                = inl (ErrorInstance cannot_destructure)).
  { unfold parse_instructions. rewrite Hp. reflexivity. }
  rewrite (end_step _ _ _ Hr), (listener_throws _ _ _ _ Hpi).
  unfold catch_run, same_runs. run_action. repeat split.
Qed.

(** X6: When the body of a POST /run parses to a value that is neither null nor
    an object (a number, a string, a boolean, an array), the listener
    answers 400 and nothing of the run state changes. *)
Theorem run_non_object_body w c body data :
  reading w !! c = Some body ->
  JSON_parse (or_empty_object body) = inr data ->
  data <> JNull -> data <> JUndefined ->
  (forall members, data <> JObject members) ->
  let w' := step' w (End c) in
  sent w' = (c, json_response 400 bad_request) :: sent w
  /\ same_runs w w'.
Proof.
  intros Hr Hp Hn Hu Ho. cbv zeta.
  pose proof (parse_value _ _ Hp Hn Hu) as Hv.
  assert (Hi : instructions_of data = JUndefined).
  { destruct data; try reflexivity. destruct (Ho members). reflexivity. }
  rewrite Hi in Hv.
  rewrite (end_step _ _ _ Hr), (listener_invalid _ _ _ _ Hv) by (intros ? [=]).
  unfold same_runs. cbn. repeat split.
Qed.

(** *** One run at a time *)

Lemma same_runs_trans w1 w2 w3 :
  same_runs w1 w2 -> same_runs w2 w3 -> same_runs w1 w3.
Proof.
  unfold same_runs. intros (-> & -> & -> & -> & ->) (-> & -> & -> & -> & ->).
  repeat split.
Qed.

Lemma gate_step w e :
  thinking (store w) = true \/ status (store w) = RUNNING ->
  keeps_gate e = true ->
  same_runs w (step' w e).
Proof.
  intros Hbusy Hk.
  assert (E : thinking (store w) || StatusEnum_eqb (status (store w)) RUNNING
              = true).
  { destruct Hbusy as [-> | ->]; [reflexivity | apply orb_true_r]. }
  destruct e as [req|c0 chunk|c0|r0 o|p|p| |]; try discriminate Hk.
  - destruct (String.eqb (method req) "OPTIONS") eqn:Hm.
    + apply String.eqb_eq in Hm. rewrite (request_options _ _ Hm).
      unfold same_runs. cbn. repeat split.
    + apply String.eqb_neq in Hm.
      destruct (authenticated (config w) req) eqn:Ha.
      * rewrite (request_routed _ _ Hm Ha). cbv zeta.
        cbn in Hk. apply negb_true_iff in Hk. rewrite Hk.
        unfold same_runs. crunch; cbn; repeat split.
      * rewrite (request_refused _ _ Hm Ha). unfold same_runs. cbn.
        repeat split.
  - unfold step, exec, on_data, same_runs. crunch; cbn; repeat split.
  - unfold step, exec, on_end.
    destruct (reading w !! c0) as [body|]; [|unfold same_runs; repeat split].
    unfold end_listener, catch_run.
    destruct (parse_instructions' body) as [error|v];
      [unfold same_runs; run_action; repeat split|].
    destruct (negb (truthy v) || negb (String.eqb (typeof v) "string"));
      [unfold same_runs; run_action; repeat split|].
    run_action. rewrite E. unfold same_runs. cbn. repeat split.
  - unfold step, exec, setConfig, start, stop, same_runs.
    crunch; cbn; repeat split.
  - unfold step, exec, start, same_runs. crunch; cbn; repeat split.
  - unfold step, exec, stop, same_runs. crunch; cbn; repeat split.
Qed.

(** X7: While the store has thinking true or status RUNNING, no HTTP traffic
    other than POST /stop, in whatever order its requests, chunks and ends
    come, starts a run or changes anything of the run state: the check and
    the set of POST /run happen in one turn. *)
Theorem no_second_run es :
  forall w,
    thinking (store w) = true \/ status (store w) = RUNNING ->
    forallb keeps_gate es = true ->
    same_runs w (run JSON_parse cannot_destructure w es).
Proof.
  induction es as [|e es IH]; intros w Hbusy Hk.
  - unfold same_runs. repeat split.
  - cbn in Hk. apply andb_true_iff in Hk as [He Hes].
    pose proof (gate_step w e Hbusy He) as Hstep.
    apply (same_runs_trans _ _ _ Hstep). apply IH; [|exact Hes].
    destruct Hstep as (-> & _). exact Hbusy.
Qed.

(** X8: POST /stop opens the gate at once: a valid POST /run that ends right
    after it is accepted, in whatever state the store was, and the runs
    that were pending before are pending still, beside the new one. *)
Theorem stop_reopens_gate w req c body data instr :
  method req = "POST" ->
  url req = "/stop" ->
  authenticated (config w) req = true ->
  reading w !! c = Some body ->
  JSON_parse (or_empty_object body) = inr data ->
  instructions_of data = JString instr ->
  instr <> EmptyString ->
  let w' := step' (step' w (Request req)) (End c) in
  sent w' = (c, json_response 200 (agent_started instr))
              :: (connections w, json_response 200 agent_stopped) :: sent w
  /\ pending w' = <[runs w := c]> (pending w)
  /\ thinking (store w') = true
  /\ status (store w') = END.
Proof.
  intros Hm Hu Ha Hr Hp Hi Hs. cbv zeta.
  assert (Hno : method req <> "OPTIONS") by (rewrite Hm; discriminate).
  assert (Hr1 : reading (step' w (Request req)) !! c = Some body).
  { rewrite (request_routed _ _ Hno Ha), Hm, Hu. crunch; exact Hr. }
  rewrite (end_step _ _ _ Hr1),
    (listener_valid _ _ _ _ (parse_string _ _ _ Hp Hi) Hs).
  rewrite (request_routed _ _ Hno Ha), Hm, Hu.
  crunch; repeat split.
Qed.

(** X9: The callbacks of a run do not ask whether it is the latest: when any
    pending run resolves and the status is not RUNNING, a valid POST /run
    that ends next is accepted, while the other pending runs go on. *)
Theorem settle_opens_gate w r c0 c body data instr :
  pending w !! r = Some c0 ->
  status (store w) <> RUNNING ->
  reading w !! c = Some body ->
  JSON_parse (or_empty_object body) = inr data ->
  instructions_of data = JString instr ->
  instr <> EmptyString ->
  let w' := step' (step' w (Settle r Resolved)) (End c) in
  sent w' = (c, json_response 200 (agent_started instr)) :: sent w
  /\ pending w' = <[runs w := c]> (delete r (pending w))
  /\ thinking (store w') = true.
Proof.
  intros Hpend Hst Hr Hp Hi Hs. cbv zeta.
  assert (Hr1 : reading (step' w (Settle r Resolved)) !! c = Some body).
  { unfold step, exec, on_settle, settled. rewrite Hpend. exact Hr. }
  rewrite (end_step _ _ _ Hr1),
    (listener_valid _ _ _ _ (parse_string _ _ _ Hp Hi) Hs).
  unfold step, exec, on_settle, settled. rewrite Hpend. run_action.
  destruct (StatusEnum_eqb (status (store w)) RUNNING) eqn:E;
    [apply StatusEnum_eqb_eq in E; contradiction|].
  cbn. repeat split.
Qed.

(** X10: When the promise of a run is rejected with null or undefined, reading
    the message throws inside the callback: the error is logged and the
    store stays as it is, thinking included. *)
Theorem rejected_nullish w r c error :
  pending w !! r = Some c ->
  error_message error = None ->
  let w' := step' w (Settle r (Rejected error)) in
  store w' = store w
  /\ log w' = LogError "[HttpServer] runAgent error:" :: log w
  /\ sent w' = sent w.
Proof.
  intros Hpend Herr. cbv zeta. unfold step, exec, on_settle, settled.
  rewrite Hpend. run_action. rewrite Herr. repeat split.
Qed.

(** X11: A second POST /stop changes nothing but the list of responses: the
    store and the aborted controllers are as the first one left them. *)
Theorem stop_twice w req1 req2 :
  method req1 = "POST" -> url req1 = "/stop" ->
  authenticated (config w) req1 = true ->
  method req2 = "POST" -> url req2 = "/stop" ->
  authenticated (config w) req2 = true ->
  let w1 := step' w (Request req1) in
  let w2 := step' w1 (Request req2) in
  store w2 = store w1
  /\ aborted w2 = aborted w1
  /\ sent w2 = (S (connections w), json_response 200 agent_stopped) :: sent w1.
Proof.
  intros Hm1 Hu1 Ha1 Hm2 Hu2 Ha2. cbv zeta.
  assert (Hno1 : method req1 <> "OPTIONS") by (rewrite Hm1; discriminate).
  assert (Hno2 : method req2 <> "OPTIONS") by (rewrite Hm2; discriminate).
  assert (Hc : config (step' w (Request req1)) = config w).
  { rewrite (request_routed _ _ Hno1 Ha1), Hm1, Hu1. crunch; reflexivity. }
  rewrite (request_routed _ _ Hno2) by (rewrite Hc; exact Ha2).
  rewrite Hm2, Hu2.
  rewrite (request_routed _ _ Hno1 Ha1), Hm1, Hu1.
  destruct (abortController (store w)) as [a|] eqn:E; run_action;
    rewrite ?E; cbn; rewrite ?E; repeat split.
  apply set_eq. intros x. rewrite !elem_of_union. tauto.
Qed.

(** *** Bodies in chunks *)







(** *** One answer for each request *)

Lemma request_turn w req :
  connections (step' w (Request req)) = S (connections w)
  /\ ((exists r, sent (step' w (Request req)) = (connections w, r) :: sent w
                 /\ reading (step' w (Request req)) = reading w)
      \/ (sent (step' w (Request req)) = sent w
          /\ reading (step' w (Request req))
             = <[connections w := EmptyString]> (reading w))).
Proof.
  destruct (String.eqb (method req) "OPTIONS") eqn:Hm.
  - apply String.eqb_eq in Hm. rewrite (request_options _ _ Hm).
    cbn. split; [reflexivity|]. left. eauto.
  - apply String.eqb_neq in Hm.
    destruct (authenticated (config w) req) eqn:Ha.
    + rewrite (request_routed _ _ Hm Ha). cbv zeta.
      crunch; cbn; (split; [reflexivity|]); eauto.
    + rewrite (request_refused _ _ Hm Ha). cbn.
      split; [reflexivity|]. left. eauto.
Qed.

Lemma end_turn w c body :
  reading w !! c = Some body ->
  connections (step' w (End c)) = connections w
  /\ reading (step' w (End c)) = delete c (reading w)
  /\ exists r, sent (step' w (End c)) = (c, r) :: sent w.
Proof.
  intros Hr. rewrite (end_step _ _ _ Hr).
  unfold end_listener, catch_run. crunch; cbn; repeat split; eauto.
Qed.

Lemma other_turn w e :
  (forall req, e <> Request req) ->
  (forall c, e = End c -> reading w !! c = None) ->
  connections (step' w e) = connections w
  /\ sent (step' w e) = sent w
  /\ forall c, is_Some (reading (step' w e) !! c) <-> is_Some (reading w !! c).
Proof.
  intros Hreq Hend.
  destruct e as [req|c0 chunk|c0|r0 o|p|p| |].
  - destruct (Hreq req). reflexivity.
  - unfold step, exec, on_data.
    destruct (reading w !! c0) as [body|] eqn:Hr; cbn; [|tauto].
    repeat split; try tauto; rewrite lookup_insert; case_decide;
      subst; rewrite ?Hr; eauto.
  - unfold step, exec, on_end. rewrite (Hend c0 eq_refl). tauto.
  - unfold step, exec, on_settle, settled. crunch; cbn; tauto.
  - cbn. tauto.
  - unfold step, exec, setConfig, start, stop. crunch; cbn; tauto.
  - unfold step, exec, start. crunch; cbn; tauto.
  - unfold step, exec, stop. crunch; cbn; tauto.
Qed.

Lemma each_request_once_other w e :
  (forall req, e <> Request req) ->
  (forall c, e = End c -> reading w !! c = None) ->
  each_request_once w -> each_request_once (step' w e).
Proof.
  intros Hreq Hend (Hnd & Hall & Hdisj).
  destruct (other_turn w e Hreq Hend) as (Hc & Hs & Hrd).
  unfold each_request_once, answered in *. rewrite Hc, Hs.
  repeat split; [exact Hnd | | | ].
  - intros H. apply Hall in H. rewrite Hrd. exact H.
  - rewrite Hrd. apply Hall.
  - intros c. rewrite Hrd. apply Hdisj.
Qed.

Lemma each_request_once_step w e :
  each_request_once w -> each_request_once (step' w e).
Proof.
  intros Hw.
  destruct e as [req|c0 chunk|c0|r0 o|p|p| |];
    try (apply each_request_once_other;
         [discriminate | discriminate | exact Hw]).
  - destruct Hw as (Hnd & Hall & Hdisj).
    unfold each_request_once, answered in *.
    assert (Hfr : reading w !! connections w = None).
    { destruct (reading w !! connections w) eqn:E; [|reflexivity].
      assert (connections w < connections w) by (apply Hall; eauto). lia. }
    assert (Hfs : connections w ∉ map fst (sent w)).
    { intros Hin. assert (connections w < connections w)
        by (apply Hall; eauto). lia. }
    destruct (request_turn w req) as (Hc & [(r & Hs & Hrd) | (Hs & Hrd)]);
      rewrite Hc, Hs, Hrd; cbn.
    + repeat split.
      * apply NoDup_cons. auto.
      * intros Hlt. destruct (decide (c = connections w)) as [-> | Hne];
          [right; left|].
        assert (Hlt' : c < connections w) by lia.
        apply Hall in Hlt' as [? | ?]; [auto | right; right; assumption].
      * intros [Hsome | [-> | Hin]%elem_of_cons]; [| lia |].
        -- assert (c < connections w) by (apply Hall; auto). lia.
        -- assert (c < connections w) by (apply Hall; auto). lia.
      * intros c Hsome [-> | Hin]%elem_of_cons.
        -- rewrite Hfr in Hsome. destruct Hsome as [? [=]].
        -- exact (Hdisj c Hsome Hin).
    + repeat split.
      * exact Hnd.
      * intros Hlt. destruct (decide (c = connections w)) as [-> | Hne].
        -- left. rewrite lookup_insert_eq. eauto.
        -- assert (Hlt' : c < connections w) by lia.
           apply Hall in Hlt' as [? | ?]; [left | right; assumption].
           rewrite lookup_insert_ne by congruence. assumption.
      * intros [Hsome | Hin].
        -- destruct (decide (c = connections w)) as [-> | Hne]; [lia|].
           rewrite lookup_insert_ne in Hsome by congruence.
           assert (c < connections w) by (apply Hall; auto). lia.
        -- assert (c < connections w) by (apply Hall; auto). lia.
      * intros c Hsome Hin.
        destruct (decide (c = connections w)) as [-> | Hne];
          [exact (Hfs Hin)|].
        rewrite lookup_insert_ne in Hsome by congruence.
        exact (Hdisj c Hsome Hin).
  - destruct (reading w !! c0) as [body|] eqn:Hr.
    + destruct Hw as (Hnd & Hall & Hdisj).
      unfold each_request_once, answered in *.
      destruct (end_turn w c0 body Hr) as (Hc & Hrd & r & Hs).
      rewrite Hc, Hs, Hrd. cbn.
      assert (Hc0 : c0 ∉ map fst (sent w)) by (apply Hdisj; eauto).
      repeat split.
      * apply NoDup_cons. auto.
      * intros Hlt. destruct (decide (c = c0)) as [-> | Hne];
          [right; left|].
        apply Hall in Hlt as [? | ?]; [left | right; right; assumption].
        rewrite lookup_delete_ne by congruence. assumption.
      * intros [Hsome | [-> | Hin]%elem_of_cons].
        -- destruct (decide (c = c0)) as [-> | Hne].
           ++ rewrite lookup_delete_eq in Hsome. destruct Hsome as [? [=]].
           ++ rewrite lookup_delete_ne in Hsome by congruence.
              apply Hall. auto.
        -- apply Hall. left. eauto.
        -- apply Hall. auto.
      * intros c Hsome [-> | Hin]%elem_of_cons.
        -- rewrite lookup_delete_eq in Hsome. destruct Hsome as [? [=]].
        -- destruct (decide (c = c0)) as [-> | Hne]; [exact (Hc0 Hin)|].
           rewrite lookup_delete_ne in Hsome by congruence.
           exact (Hdisj c Hsome Hin).
    + apply each_request_once_other;
        [discriminate | intros ? [= <-]; exact Hr | exact Hw].
Qed.

(** X13: Whatever turns the service takes, every request it has received is
    either still being read (a POST /run before its end) or has been
    answered, never both, and no request is answered twice. *)
Theorem one_answer_each es :
  forall w,
    each_request_once w ->
    each_request_once (run JSON_parse cannot_destructure w es).
Proof.
  induction es as [|e es IH]; intros w Hw; [exact Hw|].
  apply IH, each_request_once_step, Hw.
Qed.

End Handler.

(** ** More about the listener *)

Lemma spread_twice c p : spread (spread c p) p = spread c p.
Proof.
  unfold spread. cbn.
  destruct (set_enabled p), (set_port p), (set_host p), (set_apiKey p);
    reflexivity.
Qed.

(** X14: After [setConfig], whatever came before, the listener runs exactly
    when the merged configuration enables it. *)
Theorem setConfig_running_iff_enabled w p :
  let w' := exec (setConfig p) w in
  is_running w' = is_enabled (config w').
Proof.
  cbv zeta. unfold exec, setConfig, start, stop, is_running. cbn.
  destruct (server w) as [l|] eqn:Hs; cbn;
    destruct (is_enabled (spread (config w) p)) eqn:He; cbn;
    rewrite ?Hs, ?He; cbn; rewrite ?Hs, ?He; reflexivity.
Qed.

(** X15: [setConfig] with the same argument a second time changes nothing, not
    even the log. *)
Theorem setConfig_idempotent w p :
  exec (setConfig p) (exec (setConfig p) w) = exec (setConfig p) w.
Proof.
  unfold exec, setConfig, start, stop, is_running. cbn.
  destruct (server w) as [l|] eqn:Hs; cbn;
    destruct (is_enabled (spread (config w) p)) eqn:He; cbn;
    rewrite ?Hs, ?He; cbn; rewrite ?spread_twice, ?He; cbn;
    rewrite ?Hs; cbn; unfold with_config, with_server; cbn;
    rewrite ?spread_twice, ?Hs; reflexivity.
Qed.

(** X16: Disabling and enabling again, by two [setConfig] calls, leaves a
    listener bound to the host and port of the configuration, wherever a
    listener was bound before. *)
Theorem toggle_rebinds w :
  let w' := exec (setConfig (only_enabled true))
                 (exec (setConfig (only_enabled false)) w) in
  server w' = Some (mkListener (port (config w)) (host (config w)))
  /\ port (config w') = port (config w)
  /\ host (config w') = host (config w).
Proof.
  cbv zeta. unfold exec, setConfig, start, stop, is_running. cbn.
  destruct (server w) as [l|] eqn:Hs; cbn; rewrite ?Hs; cbn; repeat split.
Qed.

(** X17: [setConfig], [start] and [stop] touch the configuration, the listener
    and the log only: the run state, the pending runs, the bodies being
    read and the responses stay, so stopping the listener neither aborts
    the agent nor drops a request that is being read. *)
Theorem listener_calls_frame JSON_parse message w e :
  (exists p, e = SetConfig p) \/ e = Start \/ e = Stop ->
  let w' := step JSON_parse message w e in
  same_runs w w' /\ reading w' = reading w /\ sent w' = sent w
  /\ connections w' = connections w.
Proof.
  intros [[p ->] | [-> | ->]]; cbv zeta;
    unfold step, exec, setConfig, start, stop, same_runs, is_running,
      logger_warn, logger_info; cbn;
    repeat match goal with
           | |- context [match ?x with _ => _ end] => destruct x; cbn
           end;
    repeat split.
Qed.

(** X18: [start] leaves a listener exactly when there was one or the
    configuration enables one: it never starts a disabled service, and a
    listener it creates is bound to the host and port of the
    configuration. *)
Theorem start_runs_iff w :
  is_running (exec start w) = is_running w || is_enabled (config w)
  /\ (is_running w = false -> is_enabled (config w) = true ->
      server (exec start w)
      = Some (mkListener (port (config w)) (host (config w))))
  /\ (is_running w = false -> is_enabled (config w) = false ->
      log (exec start w) = LogInfo "[HttpServer] Server is disabled" :: log w).
Proof.
  unfold exec, start, is_running, logger_warn, logger_info.
  destruct (server w) as [l|] eqn:Hs; cbn;
    destruct (is_enabled (config w)); cbn; rewrite ?Hs;
    repeat split; intros; congruence.
Qed.

(** X19: Unlike host and port, a new key binds at once: a request other than
    OPTIONS that comes right after [setConfig] has set a key that is not
    empty, and does not carry it, is answered 401, and the listener is the
    one that was there. *)
Theorem apiKey_applies_at_once JSON_parse message w k req :
  k <> EmptyString ->
  method req <> "OPTIONS" ->
  headers req !! "x-api-key" <> Some k ->
  let w1 := step JSON_parse message w (SetConfig (only_apiKey k)) in
  let w2 := step JSON_parse message w1 (Request req) in
  sent w2 = (connections w, json_response 401 unauthorized) :: sent w
  /\ (is_running w = is_enabled (config w) -> server w2 = server w).
Proof.
  intros Hk Hm Hh. cbv zeta.
  assert (Hcfg : apiKey (config (step JSON_parse message w
                                   (SetConfig (only_apiKey k)))) = Some k).
  { unfold step, exec, setConfig, start, stop, is_running, logger_warn,
      logger_info. cbn.
    repeat match goal with
           | |- context [match ?x with _ => _ end] => destruct x; cbn
           end; reflexivity. }
  assert (Ha : authenticated
                 (config (step JSON_parse message w (SetConfig (only_apiKey k))))
                 req = false).
  { unfold authenticated, apiKey_configured. rewrite Hcfg.
    apply negb_false_iff, andb_true_iff. split.
    - apply negb_true_iff, String.eqb_neq. exact Hk.
    - apply strict_neq_true. exact Hh. }
  rewrite (request_refused _ _ _ _ Hm Ha).
  unfold step, exec, setConfig, start, stop, is_running, is_enabled. cbn.
  destruct (server w) as [l|] eqn:Hs; cbn;
    destruct (enabled (config w)) as [[|]|] eqn:He; cbn; rewrite ?Hs; cbn;
    split; try reflexivity; intros; congruence.
Qed.

(** X20: The key is checked when the request comes in and not again: whatever
    [setConfig] does while the body of a POST /run is being read, also
    setting a key the request does not carry, the request is answered as it
    would have been. *)
Theorem end_ignores_key JSON_parse message w p c body :
  reading w !! c = Some body ->
  let w1 := step JSON_parse message w (SetConfig p) in
  sent (step JSON_parse message w1 (End c))
  = sent (step JSON_parse message w (End c))
  /\ store (step JSON_parse message w1 (End c))
     = store (step JSON_parse message w (End c))
  /\ pending (step JSON_parse message w1 (End c))
     = pending (step JSON_parse message w (End c)).
Proof.
  intros Hr. cbv zeta.
  unfold step, exec, on_end, setConfig, start, stop, is_running,
    logger_warn, logger_info. cbn.
  destruct (server w) as [l|]; cbn;
    destruct (is_enabled (spread (config w) p)); cbn; rewrite Hr;
    unfold end_listener, catch_run;
    destruct (parse_instructions JSON_parse message body) as [error|v];
    try (repeat split; reflexivity);
    destruct (negb (truthy v) || negb (String.eqb (typeof v) "string"));
    try (repeat split; reflexivity);
    unfold mbind, Action_bind, getState; cbn;
    destruct (thinking (store w) || StatusEnum_eqb (status (store w)) RUNNING);
    repeat split; reflexivity.
Qed.

(** ** The settings routes *)


(** X22: A key of the input that is there with the value undefined erases the
    field in memory and leaves the stored setting: the two part ways. *)
Theorem setHttpServerConfig_undefined_port input app :
  set_port input = Some None ->
  let app' := snd (httpServerRoute.setHttpServerConfig input app) in
  port (config (service app')) = None
  /\ httpServerPort (settings app') = httpServerPort (settings app).
Proof.
  intros Hp. cbv zeta.
  unfold httpServerRoute.setHttpServerConfig, exec, setConfig, start, stop,
    is_running, logger_warn, logger_info. cbn. rewrite Hp. cbn.
  split; [|reflexivity].
  repeat match goal with
         | |- context [match ?x with _ => _ end] => destruct x; cbn
         end; rewrite ?Hp; reflexivity.
Qed.


(** X24: [stopHttpServer] leaves no listener and stores the flag false; host,
    port and key stay, in memory and in the settings, and so does the run
    state: the agent is not aborted. *)
Theorem stopHttpServer_stops app :
  let result := httpServerRoute.stopHttpServer app in
  let app' := snd result in
  fst result = true
  /\ server (service app') = None
  /\ enabled (config (service app')) = Some false
  /\ httpServerEnabled (settings app') = Some false
  /\ same_runs (service app) (service app')
  /\ (in_sync app -> in_sync app').
Proof.
  cbv zeta.
  unfold httpServerRoute.stopHttpServer, in_sync, exec, setConfig, start,
    stop, is_running, same_runs. cbn.
  destruct (server (service app)) as [l|] eqn:Hs; cbn; rewrite ?Hs; cbn;
    repeat split; tauto.
Qed.

(** X25: A new port given through [setHttpServerConfig] to a service that
    listens and stays enabled does not move the listener; after
    [stopHttpServer] and [startHttpServer] the listener is bound to it. *)
Theorem port_change_needs_restart n app :
  is_running (service app) = true ->
  is_enabled (config (service app)) = true ->
  let app1 := snd (httpServerRoute.setHttpServerConfig (only_port n) app) in
  let app2 := snd (httpServerRoute.stopHttpServer app1) in
  let app3 := snd (httpServerRoute.startHttpServer app2) in
  server (service app1) = server (service app)
  /\ port (config (service app1)) = Some n
  /\ server (service app3)
     = Some (mkListener (Some n) (httpServerHost (settings app))).
Proof.
  intros Hr He. cbv zeta.
  unfold httpServerRoute.setHttpServerConfig, httpServerRoute.stopHttpServer,
    httpServerRoute.startHttpServer, exec, setConfig, start, stop,
    is_running, is_enabled, only_port in *.
  cbn in *.
  destruct (server (service app)) as [l|] eqn:Hs; [|discriminate].
  destruct (enabled (config (service app))) as [[|]|] eqn:Hen;
    try discriminate.
  cbn. rewrite ?Hs, ?Hen. cbn. rewrite ?Hs. cbn. repeat split.
Qed.

(** ** The theorems at work, and where the specification says otherwise *)

Lemma polling_reads_only_witness :
  let req := request "GET" "/status" in
  let w := busy_reading "{}" in
  method req = "GET"
  /\ (url req = "/health" \/ url req = "/status")
  /\ same_runs w (step_ref w (Request req)).
Proof.
  cbv zeta. split; [reflexivity|]. split; [right; reflexivity|].
  apply (polling_reads_only JSON.parse null_message);
    [reflexivity | right; reflexivity].
Defined.

Lemma stop_request_witness :
  let req := request "POST" "/stop" in
  let w := busy_reading "{}" in
  method req = "POST" /\ url req = "/stop"
  /\ authenticated (config w) req = true
  /\ status (store (step_ref w (Request req))) = END
  /\ thinking (store (step_ref w (Request req))) = false
  /\ aborted (step_ref w (Request req)) = {[0]} ∪ aborted w
  /\ sent (step_ref w (Request req))
     = (connections w, json_response 200 agent_stopped) :: sent w.
Proof.
  cbv zeta. do 3 (split; [reflexivity|]).
  destruct (stop_request JSON.parse null_message (busy_reading "{}")
              (request "POST" "/stop") eq_refl eq_refl eq_refl)
    as (Hstore & Haborted & Hsent).
  unfold step_ref. rewrite Hstore, Haborted, Hsent. repeat split.
Defined.

Lemma run_starts_agent_witness :
  let body := run_body "Open Calculator app" in
  let data := JObject [("instructions", JString "Open Calculator app")] in
  let w := reading_body body in
  reading w !! 0 = Some body
  /\ JSON.parse (or_empty_object body) = inr data
  /\ instructions_of data = JString "Open Calculator app"
  /\ "Open Calculator app" <> EmptyString
  /\ thinking (store w) = false
  /\ status (store w) <> RUNNING
  /\ sent (step_ref w (End 0))
     = (0, json_response 200 (agent_started "Open Calculator app")) :: sent w
  /\ store (step_ref w (End 0))
     = {| status := IDLE; thinking := true;
          instructions := Some "Open Calculator app"; messages := Some [];
          errorMsg := None; abortController := Some 0 |}
  /\ pending (step_ref w (End 0)) = <[0 := 0]> (pending w).
Proof.
  cbv zeta. do 6 (split; [first [reflexivity | discriminate]|]).
  destruct (run_starts_agent JSON.parse null_message
              (reading_body (run_body "Open Calculator app")) 0
              (run_body "Open Calculator app")
              (JObject [("instructions", JString "Open Calculator app")])
              "Open Calculator app" eq_refl eq_refl eq_refl
              ltac:(discriminate) eq_refl ltac:(discriminate))
    as (Hsent & Hstore & _ & _ & _ & Hpending & _).
  unfold step_ref. rewrite Hsent, Hstore, Hpending. repeat split.
Defined.

Lemma run_conflict_witness :
  let body := run_body "Open Notes" in
  let data := JObject [("instructions", JString "Open Notes")] in
  let w := busy_reading body in
  reading w !! 1 = Some body
  /\ JSON.parse (or_empty_object body) = inr data
  /\ instructions_of data = JString "Open Notes"
  /\ "Open Notes" <> EmptyString
  /\ (thinking (store w) = true \/ status (store w) = RUNNING)
  /\ sent (step_ref w (End 1)) = (1, json_response 409 conflict) :: sent w
  /\ same_runs w (step_ref w (End 1)).
Proof.
  cbv zeta.
  do 5 (split; [first [reflexivity | discriminate | left; reflexivity]|]).
  apply (run_conflict JSON.parse null_message
           (busy_reading (run_body "Open Notes")) 1 (run_body "Open Notes")
           (JObject [("instructions", JString "Open Notes")]) "Open Notes");
    first [reflexivity | discriminate | left; reflexivity].
Defined.

Lemma run_bad_request_witness :
  let body := "[1, 2]" in
  let data := JArray [JNumber 1 0; JNumber 2 0] in
  let w := reading_body body in
  reading w !! 0 = Some body
  /\ JSON.parse (or_empty_object body) = inr data
  /\ data <> JNull /\ data <> JUndefined
  /\ sent (step_ref w (End 0)) = (0, json_response 400 bad_request) :: sent w
  /\ same_runs w (step_ref w (End 0)).
Proof.
  cbv zeta. do 4 (split; [first [reflexivity | discriminate]|]).
  destruct (run_bad_request JSON.parse null_message (reading_body "[1, 2]") 0
              "[1, 2]" (JArray [JNumber 1 0; JNumber 2 0])
              eq_refl eq_refl ltac:(discriminate) ltac:(discriminate))
    as ([_ Hiff] & Hsame).
  assert (H : sent (step_ref (reading_body "[1, 2]") (End 0))
              = (0, json_response 400 bad_request)
                  :: sent (reading_body "[1, 2]"))
    by (apply Hiff; left; reflexivity).
  split; [exact H | exact (Hsame H)].
Defined.

Lemma run_malformed_json_witness :
  let w := reading_body "{" in
  reading w !! 0 = Some "{"
  /\ "{" <> EmptyString
  /\ JSON.parse "{" = inl JSON.syntax_error
  /\ sent (step_ref w (End 0))
     = (0, json_response 500 (internal_error "Unexpected token in JSON"))
         :: sent w
  /\ same_runs w (step_ref w (End 0)).
Proof.
  cbv zeta. do 3 (split; [first [reflexivity | discriminate]|]).
  apply (run_malformed_json JSON.parse null_message (reading_body "{") 0 "{"
           JSON.syntax_error);
    first [reflexivity | discriminate].
Defined.

Lemma run_empty_body_witness :
  let w := step_ref new_service (Request (request "POST" "/run")) in
  JSON.parse "{}" = inr (JObject [])
  /\ reading w !! 0 = Some EmptyString
  /\ sent (step_ref w (End 0)) = (0, json_response 400 bad_request) :: sent w
  /\ same_runs w (step_ref w (End 0)).
Proof.
  cbv zeta. do 2 (split; [reflexivity|]).
  apply (run_empty_body JSON.parse null_message
           (step_ref new_service (Request (request "POST" "/run"))) 0);
    reflexivity.
Defined.

Lemma authentication_witness :
  let wrong := request_with_key "POST" "/stop" "guess" in
  let preflight := request "OPTIONS" "/run" in
  (apiKey (config with_key) = Some "s3cret"
   /\ "s3cret" <> EmptyString
   /\ method wrong <> "OPTIONS"
   /\ headers wrong !! "x-api-key" <> Some "s3cret"
   /\ sent (step_ref with_key (Request wrong))
      = (0, json_response 401 unauthorized) :: sent with_key
   /\ same_runs with_key (step_ref with_key (Request wrong)))
  /\ (apiKey (config new_service) = None
      /\ sent (step_ref new_service (Request wrong))
         = (0, json_response 200 agent_stopped) :: sent new_service
      /\ statusCode (json_response 200 agent_stopped) <> 401)
  /\ (method preflight = "OPTIONS"
      /\ sent (step_ref with_key (Request preflight))
         = (0, mkResponse 200 cors_headers None) :: sent with_key
      /\ same_runs with_key (step_ref with_key (Request preflight))).
Proof.
  cbv zeta. split; [|split].
  - split; [reflexivity|]. do 3 (split; [discriminate|]).
    apply (proj1 (authentication JSON.parse null_message with_key
                    (request_with_key "POST" "/stop" "guess")) "s3cret");
      first [reflexivity | discriminate].
  - do 2 (split; [reflexivity|]).
    apply (proj1 (proj2 (authentication JSON.parse null_message new_service
                           (request_with_key "POST" "/stop" "guess")))
             (or_introl eq_refl)
             (Request (request_with_key "POST" "/stop" "guess")) 0
             (json_response 200 agent_stopped)).
    reflexivity.
  - split; [reflexivity|].
    apply (proj2 (proj2 (authentication JSON.parse null_message with_key
                           (request "OPTIONS" "/run")))).
    reflexivity.
Defined.



Lemma setConfig_applies_witness :
  let on := step_ref new_service (SetConfig (only_enabled true)) in
  (is_running new_service = false
   /\ is_enabled (spread (config new_service) (only_enabled true)) = true
   /\ server on = Some (mkListener (Some 9527%N) (Some "127.0.0.1")))
  /\ (is_running on = true
      /\ is_enabled (spread (config on) (only_enabled false)) = false
      /\ server (step_ref on (SetConfig (only_enabled false))) = None)
  /\ (is_running on = is_enabled (spread (config on) (only_port 8080))
      /\ server (step_ref on (SetConfig (only_port 8080))) = server on)
  /\ (is_running on = true
      /\ log (step_ref on Start)
         = LogWarn "[HttpServer] Server already running" :: log on).
Proof.
  cbv zeta. split; [|split; [|split]].
  - do 2 (split; [reflexivity|]).
    apply (proj1 (proj2 (proj2 (setConfig_applies JSON.parse null_message
                                  new_service (only_enabled true)))));
      reflexivity.
  - do 2 (split; [reflexivity|]).
    apply (proj1 (proj2 (setConfig_applies JSON.parse null_message
                           (step_ref new_service (SetConfig (only_enabled true)))
                           (only_enabled false))));
      reflexivity.
  - split; [reflexivity|].
    apply (proj1 (proj2 (proj2 (proj2
             (setConfig_applies JSON.parse null_message
                (step_ref new_service (SetConfig (only_enabled true)))
                (only_port 8080))))));
      reflexivity.
  - split; [reflexivity|].
    apply (proj1 (proj2 (proj2 (proj2 (proj2
             (setConfig_applies JSON.parse null_message
                (step_ref new_service (SetConfig (only_enabled true)))
                (only_port 8080))))))).
    reflexivity.
Defined.

(** C1 as the specification words it fails: the empty string is a string,
    and POST /run with it gets 400. *)
Lemma accepts_every_string_fails :
  ~ accepts_every_string JSON.parse null_message.
Proof.
  intros H.
  specialize (H (reading_body (run_body EmptyString)) 0 (run_body EmptyString)
                (JObject [("instructions", JString EmptyString)]) EmptyString
                eq_refl eq_refl eq_refl eq_refl ltac:(discriminate)).
  vm_compute in H. discriminate H.
Qed.

(** C4 as the specification words it fails: [instructions] is there and is
    a string, the empty one, and the answer is 400. *)
Lemma bad_request_iff_no_string_fails :
  ~ bad_request_iff_no_string JSON.parse null_message.
Proof.
  intros H.
  destruct (H (reading_body (run_body EmptyString)) 0 (run_body EmptyString)
              (JObject [("instructions", JString EmptyString)])
              eq_refl eq_refl) as [Himp _].
  destruct (Himp eq_refl) as [Habsent | Hnot]; [discriminate Habsent|].
  exact (Hnot EmptyString eq_refl).
Qed.

(** C7 as the specification words it fails: the empty body is not valid
    JSON, and the answer to it is 400. *)
Lemma invalid_json_gives_500_fails :
  ~ invalid_json_gives_500 JSON.parse null_message.
Proof.
  intros H.
  destruct (H (reading_body EmptyString) 0 EmptyString JSON.syntax_error
              eq_refl eq_refl) as (text & Hsent).
  vm_compute in Hsent. discriminate Hsent.
Qed.

(** C9 as the specification words it fails: a new port given to a running
    service leaves the listener at the old one. *)
Lemma listener_follows_config_fails : ~ listener_follows_config.
Proof.
  intros H.
  specialize (H (step_ref new_service (SetConfig (only_enabled true)))
                (only_port 8080) ltac:(discriminate)).
  vm_compute in H. discriminate H.
Qed.

(** ** The further theorems at work *)

Lemma unknown_route_witness :
  let req := request "GET" "/health?verbose=1" in
  method req <> "OPTIONS"
  /\ authenticated (config running_agent) req = true
  /\ (method req = "GET" -> url req <> "/health" /\ url req <> "/status")
  /\ (method req = "POST" -> url req <> "/run" /\ url req <> "/stop")
  /\ (sent (step_ref running_agent (Request req))
      = (connections running_agent, json_response 404 not_found)
          :: sent running_agent
      /\ same_runs running_agent (step_ref running_agent (Request req))
      /\ reading (step_ref running_agent (Request req))
         = reading running_agent).
Proof.
  cbv zeta. split; [discriminate|]. split; [reflexivity|].
  split; [intros _; split; discriminate|]. split; [discriminate|].
  apply (unknown_route JSON.parse null_message running_agent
           (request "GET" "/health?verbose=1"));
    first [reflexivity | discriminate | intros _; split; discriminate].
Defined.

Lemma poll_reports_state_witness :
  let req := request "GET" "/status" in
  method req = "GET"
  /\ authenticated (config running_agent) req = true
  /\ url req = "/status"
  /\ sent (step_ref running_agent (Request req))
     = (1, json_response 200
             [("status", FStatus IDLE);
              ("instructions", FString "Open Calculator app");
              ("isRunning", FBool true);
              ("messageCount", FNumber 0)]) :: sent running_agent.
Proof.
  cbv zeta. do 3 (split; [reflexivity|]).
  apply (proj2 (poll_reports_state JSON.parse null_message running_agent
                  (request "GET" "/status") eq_refl eq_refl)).
  reflexivity.
Defined.

Lemma unauthorized_iff_witness :
  let req := request "GET" "/health" in
  method req <> "OPTIONS"
  /\ (exists k, apiKey (config with_key) = Some k /\ k <> EmptyString
                /\ headers req !! "x-api-key" <> Some k)
  /\ sent (step_ref with_key (Request req))
     = (connections with_key, json_response 401 unauthorized) :: sent with_key.
Proof.
  cbv zeta.
  assert (H : exists k, apiKey (config with_key) = Some k /\ k <> EmptyString
                        /\ headers (request "GET" "/health") !! "x-api-key"
                           <> Some k).
  { exists "s3cret". split; [reflexivity|]. split; discriminate. }
  split; [discriminate|]. split; [exact H|].
  apply (proj2 (unauthorized_iff JSON.parse null_message with_key
                  (request "GET" "/health") ltac:(discriminate))).
  exact H.
Defined.

Lemma responses_well_formed_witness :
  let e := End 0 in
  let r := json_response 500 (internal_error "Unexpected token in JSON") in
  sent (step_ref (reading_body "{") e) = (0, r) :: sent (reading_body "{")
  /\ well_formed_response r.
Proof.
  cbv zeta. split; [reflexivity|].
  apply (responses_well_formed JSON.parse null_message (reading_body "{")
           (End 0) 0).
  reflexivity.
Defined.

Lemma run_null_body_witness :
  let w := reading_body "null" in
  reading w !! 0 = Some "null"
  /\ JSON.parse (or_empty_object "null") = inr JNull
  /\ sent (step_ref w (End 0))
     = (0, json_response 500 (internal_error null_message)) :: sent w
  /\ same_runs w (step_ref w (End 0)).
Proof.
  cbv zeta. do 2 (split; [reflexivity|]).
  apply (run_null_body JSON.parse null_message (reading_body "null") 0 "null");
    reflexivity.
Defined.

Lemma run_non_object_body_witness :
  let w := reading_body "42" in
  let data := JNumber 42 0 in
  reading w !! 0 = Some "42"
  /\ JSON.parse (or_empty_object "42") = inr data
  /\ data <> JNull /\ data <> JUndefined
  /\ (forall members, data <> JObject members)
  /\ sent (step_ref w (End 0)) = (0, json_response 400 bad_request) :: sent w
  /\ same_runs w (step_ref w (End 0)).
Proof.
  cbv zeta. do 2 (split; [reflexivity|]). do 3 (split; [discriminate|]).
  apply (run_non_object_body JSON.parse null_message (reading_body "42") 0
           "42" (JNumber 42 0));
    first [reflexivity | discriminate].
Defined.

Lemma no_second_run_witness :
  let es := [Request (request "POST" "/run"); Request (request "POST" "/run");
             Data 2 (run_body "Open Notes"); Data 1 (run_body "Open Mail");
             End 2; SetConfig (only_enabled true); End 1;
             Request (request "GET" "/status")] in
  (thinking (store running_agent) = true
   \/ status (store running_agent) = RUNNING)
  /\ forallb keeps_gate es = true
  /\ same_runs running_agent (run_ref running_agent es).
Proof.
  cbv zeta. split; [left; reflexivity|]. split; [reflexivity|].
  apply (no_second_run JSON.parse null_message); [left|]; reflexivity.
Defined.

Lemma stop_reopens_gate_witness :
  let body := run_body "Open Notes" in
  let data := JObject [("instructions", JString "Open Notes")] in
  let w := busy_reading body in
  let req := request "POST" "/stop" in
  let w' := step_ref (step_ref w (Request req)) (End 1) in
  method req = "POST" /\ url req = "/stop"
  /\ authenticated (config w) req = true
  /\ reading w !! 1 = Some body
  /\ JSON.parse (or_empty_object body) = inr data
  /\ instructions_of data = JString "Open Notes"
  /\ "Open Notes" <> EmptyString
  /\ (sent w' = (1, json_response 200 (agent_started "Open Notes"))
                  :: (connections w, json_response 200 agent_stopped) :: sent w
      /\ pending w' = <[runs w := 1]> (pending w)
      /\ thinking (store w') = true
      /\ status (store w') = END).
Proof.
  cbv zeta. do 6 (split; [reflexivity|]). split; [discriminate|].
  apply (stop_reopens_gate JSON.parse null_message
           (busy_reading (run_body "Open Notes")) (request "POST" "/stop") 1
           (run_body "Open Notes")
           (JObject [("instructions", JString "Open Notes")]) "Open Notes");
    first [reflexivity | discriminate].
Defined.

Lemma settle_opens_gate_witness :
  let body := run_body "Open Notes" in
  let data := JObject [("instructions", JString "Open Notes")] in
  let w := busy_reading body in
  let w' := step_ref (step_ref w (Settle 0 Resolved)) (End 1) in
  pending w !! 0 = Some 0
  /\ status (store w) <> RUNNING
  /\ reading w !! 1 = Some body
  /\ JSON.parse (or_empty_object body) = inr data
  /\ instructions_of data = JString "Open Notes"
  /\ "Open Notes" <> EmptyString
  /\ (sent w' = (1, json_response 200 (agent_started "Open Notes")) :: sent w
      /\ pending w' = <[runs w := 1]> (delete 0 (pending w))
      /\ thinking (store w') = true).
Proof.
  cbv zeta. split; [reflexivity|]. split; [discriminate|].
  do 3 (split; [reflexivity|]). split; [discriminate|].
  apply (settle_opens_gate JSON.parse null_message
           (busy_reading (run_body "Open Notes")) 0 0 1
           (run_body "Open Notes")
           (JObject [("instructions", JString "Open Notes")]) "Open Notes");
    first [reflexivity | discriminate].
Defined.

Lemma rejected_nullish_witness :
  let w' := step_ref running_agent (Settle 0 (Rejected ThrownNullish)) in
  pending running_agent !! 0 = Some 0
  /\ error_message ThrownNullish = None
  /\ (store w' = store running_agent
      /\ log w' = LogError "[HttpServer] runAgent error:" :: log running_agent
      /\ sent w' = sent running_agent).
Proof.
  cbv zeta. do 2 (split; [reflexivity|]).
  apply (rejected_nullish JSON.parse null_message running_agent 0 0
           ThrownNullish);
    reflexivity.
Defined.

Lemma stop_twice_witness :
  let req := request "POST" "/stop" in
  let w1 := step_ref running_agent (Request req) in
  let w2 := step_ref w1 (Request req) in
  method req = "POST" /\ url req = "/stop"
  /\ authenticated (config running_agent) req = true
  /\ (store w2 = store w1
      /\ aborted w2 = aborted w1
      /\ sent w2 = (S (connections running_agent),
                    json_response 200 agent_stopped) :: sent w1).
Proof.
  cbv zeta. do 3 (split; [reflexivity|]).
  apply (stop_twice JSON.parse null_message running_agent
           (request "POST" "/stop") (request "POST" "/stop"));
    reflexivity.
Defined.


Lemma each_request_once_new : each_request_once new_service.
Proof.
  unfold each_request_once, answered. cbn. split; [constructor|]. split.
  - intros c. split; [lia|].
    intros [[x Hx] | Hin].
    + rewrite lookup_empty in Hx. discriminate.
    + apply elem_of_nil in Hin. destruct Hin.
  - intros c _ Hin. apply elem_of_nil in Hin. exact Hin.
Qed.

Lemma one_answer_each_witness :
  let es := [Request (request "POST" "/run"); Request (request "GET" "/health");
             Data 0 "{"; End 0; End 0; Request (request "POST" "/run")] in
  each_request_once new_service
  /\ each_request_once (run_ref new_service es).
Proof.
  cbv zeta. split; [exact each_request_once_new|].
  apply (one_answer_each JSON.parse null_message).
  exact each_request_once_new.
Defined.

Lemma listener_calls_frame_witness :
  let w := busy_reading "{" in
  ((exists p, Stop = SetConfig p) \/ Stop = Start \/ Stop = Stop)
  /\ (same_runs w (step_ref w Stop) /\ reading (step_ref w Stop) = reading w
      /\ sent (step_ref w Stop) = sent w
      /\ connections (step_ref w Stop) = connections w).
Proof.
  cbv zeta. split; [right; right; reflexivity|].
  apply (listener_calls_frame JSON.parse null_message (busy_reading "{") Stop).
  right. right. reflexivity.
Defined.



Lemma setHttpServerConfig_undefined_port_witness :
  let input := {| set_enabled := Some (Some true); set_port := Some None;
                  set_host := None; set_apiKey := None |} in
  let app' := snd (httpServerRoute.setHttpServerConfig input new_app) in
  set_port input = Some None
  /\ (port (config (service app')) = None
      /\ httpServerPort (settings app') = httpServerPort (settings new_app)).
Proof.
  cbv zeta. split; [reflexivity|].
  apply (setHttpServerConfig_undefined_port
           {| set_enabled := Some (Some true); set_port := Some None;
              set_host := None; set_apiKey := None |} new_app).
  reflexivity.
Defined.


Lemma listening_app_in_sync : in_sync listening_app.
Proof. repeat split. Qed.

Lemma stopHttpServer_stops_witness :
  in_sync listening_app
  /\ in_sync (snd (httpServerRoute.stopHttpServer listening_app)).
Proof.
  split; [exact listening_app_in_sync|].
  apply (proj2 (proj2 (proj2 (proj2 (proj2
           (stopHttpServer_stops listening_app)))))).
  exact listening_app_in_sync.
Defined.

Lemma port_change_needs_restart_witness :
  let app1 := snd (httpServerRoute.setHttpServerConfig (only_port 8080)
                     listening_app) in
  let app2 := snd (httpServerRoute.stopHttpServer app1) in
  let app3 := snd (httpServerRoute.startHttpServer app2) in
  is_running (service listening_app) = true
  /\ is_enabled (config (service listening_app)) = true
  /\ (server (service app1) = server (service listening_app)
      /\ port (config (service app1)) = Some 8080%N
      /\ server (service app3)
         = Some (mkListener (Some 8080%N)
                            (httpServerHost (settings listening_app)))).
Proof.
  cbv zeta. do 2 (split; [reflexivity|]).
  apply (port_change_needs_restart 8080 listening_app); reflexivity.
Defined.

Lemma start_runs_iff_witness :
  let off := step_ref listening_agent Stop in
  is_running off = false
  /\ is_enabled (config off) = true
  /\ server (exec start off)
     = Some (mkListener (port (config off)) (host (config off))).
Proof.
  cbv zeta. do 2 (split; [reflexivity|]).
  apply (proj1 (proj2 (start_runs_iff (step_ref listening_agent Stop))));
    reflexivity.
Defined.

Lemma apiKey_applies_at_once_witness :
  let req := request_with_key "POST" "/run" "guess" in
  let w1 := step_ref listening_agent (SetConfig (only_apiKey "s3cret")) in
  let w2 := step_ref w1 (Request req) in
  "s3cret" <> EmptyString
  /\ method req <> "OPTIONS"
  /\ headers req !! "x-api-key" <> Some "s3cret"
  /\ is_running listening_agent = is_enabled (config listening_agent)
  /\ sent w2 = (connections listening_agent, json_response 401 unauthorized)
                 :: sent listening_agent
  /\ server w2 = server listening_agent.
Proof.
  cbv zeta. do 3 (split; [discriminate|]). split; [reflexivity|].
  destruct (apiKey_applies_at_once JSON.parse null_message listening_agent
              "s3cret" (request_with_key "POST" "/run" "guess")
              ltac:(discriminate) ltac:(discriminate) ltac:(discriminate))
    as [Hsent Hserver].
  split; [exact Hsent | exact (Hserver eq_refl)].
Defined.

Lemma end_ignores_key_witness :
  let body := run_body "Open Notes" in
  let w := reading_body body in
  let w1 := step_ref w (SetConfig (only_apiKey "s3cret")) in
  reading w !! 0 = Some body
  /\ (sent (step_ref w1 (End 0)) = sent (step_ref w (End 0))
      /\ store (step_ref w1 (End 0)) = store (step_ref w (End 0))
      /\ pending (step_ref w1 (End 0)) = pending (step_ref w (End 0))).
Proof.
  cbv zeta. split; [reflexivity|].
  apply (end_ignores_key JSON.parse null_message
           (reading_body (run_body "Open Notes")) (only_apiKey "s3cret") 0
           (run_body "Open Notes")).
  reflexivity.
Defined.
